(** * EulisT backend: the task routes of [src/index.js]

    The program is an Express application with five routes over one
    Mongoose model, [Task].  Each route handler is embedded as a pure
    function from the request, the clock readings it takes and the
    collection, to the HTTP response and the collection afterwards;
    the application is the dispatch of an already routed request to
    its handler, and a session is a list of such requests.

    What the development fixes about the environment:
    - a request body is the object produced by the JSON body parser; the
      handlers only ever read the properties [title], [date] and
      [completed] of it, a missing property reads as [undefined];
    - a JSON number is an integer-valued double, given by its value (a
      [Z]); it is printed the way the engine prints that double;
    - what is thrown inside a handler's [try] is a [TypeError] of the
      language (a value that cannot be converted to a primitive) or a
      cast or validation error of Mongoose;
    - [Date.parse] and the cast of a path parameter to an ObjectId are
      left abstract (section variables): both depend on the engine and
      on the driver version;
    - the collection never fails on its own (no connectivity loss): the
      only errors of a storage call are the cast and validation errors
      of the schema;
    - an update drops the keys whose value is [undefined] before it is
      sent (Mongoose 6 and later), which is the partial-update reading
      the specification takes. *)

From Stdlib Require Import ZArith Lia Ascii String DecimalString.
From stdpp Require Import gmap strings list fin_maps sorting.

#[local] Open Scope Z_scope.
#[local] Set Warnings "-register-all".

(** ** What a handler can catch *)

(** The errors thrown inside a [try]: by the language when a value has
    no primitive, by Mongoose while the query or the update is cast to
    the schema, or by its validators ([save] reports the cast errors of
    the document it built as a validation error too). *)
Inductive Error : Type :=
  | TypeError
  | CastError
  | ValidationError.

Inductive result (A : Type) : Type :=
  | Ok (a : A)
  | Throw (e : Error).

Arguments Ok {A} a.
Arguments Throw {A} e.

#[global] Instance result_ret : MRet result := fun A a => Ok a.

#[global] Instance result_bind : MBind result := fun A B f m =>
  match m with
  | Ok a => f a
  | Throw e => Throw e
  end.

(** [try { body } catch (error) { handler }]. *)
Definition try_catch {A : Type} (body : result A) (handler : Error -> A) : A :=
  match body with
  | Ok a => a
  | Throw error => handler error
  end.

(** ** JavaScript values as they reach the handlers *)

Module JS.

Inductive value : Type :=
  | Undefined
  | Null
  | Bool (b : bool)
  | Num (n : Z)
  | Str (s : string)
  | Arr (l : list value)
  | Obj (o : gmap string value).

(** [o.k] on a parsed object: [undefined] when the key is absent. *)
Definition prop (o : gmap string value) (k : string) : value :=
  default Undefined (o !! k).

(** ToBoolean, as used by [!title], [!date] and [if (date)]. *)
Definition truthy (v : value) : bool :=
  match v with
  | Undefined | Null => false
  | Bool b => b
  | Num n => negb (n =? 0)
  | Str s => negb (String.eqb s "")
  | Arr _ | Obj _ => true
  end.

(** *** Number::toString on the integer-valued doubles *)

Definition decimal (n : Z) : string := NilZero.string_of_int (Z.to_int n).

Fixpoint strip_zeros (s : string) : string :=
  match s with
  | EmptyString => EmptyString
  | String c r =>
      match strip_zeros r with
      | EmptyString => if Ascii.eqb c "0" then EmptyString else String c EmptyString
      | r' => String c r'
      end
  end.

(** Whether the integer [c] is read back as the double [x], [x] being
    at least 2^53: [c] is nearer to [x] than to its neighbour on that
    side, or half way with the mantissa of [x] even. *)
Definition rounds_to (x c : Z) : bool :=
  let e := Z.log2 x - 52 in
  let m := x / 2 ^ e in
  let gap := if c <? x then (if m =? 2 ^ 52 then 2 ^ (e - 1) else 2 ^ e) else 2 ^ e in
  let d := 2 * Z.abs (c - x) in
  (d <? gap) || ((d =? gap) && Z.even m).

(** The integer with the fewest significant digits that is read back
    as [x] (the nearest to [x] of them, the even one on a tie), looked
    for with [k], [k + 1], ... significant digits. *)
Fixpoint shortest (fuel : nat) (k : Z) (len : Z) (x : Z) : Z :=
  match fuel with
  | O => x
  | S fuel' =>
      let p := 10 ^ (len - k) in
      let lo := (x / p) * p in
      let hi := lo + p in
      match rounds_to x lo, rounds_to x hi with
      | true, true =>
          if x - lo <? hi - x then lo
          else if hi - x <? x - lo then hi
          else if Z.even (lo / p) then lo else hi
      | true, false => lo
      | false, true => hi
      | false, false => shortest fuel' (k + 1) len x
      end
  end.

(** [d.ddde+n], the form of the numbers from 10^21 on. *)
Definition exponential (c : Z) : string :=
  let ds := decimal c in
  match strip_zeros ds with
  | String d rest =>
      String d (if String.eqb rest "" then "" else "." +:+ rest)
      +:+ "e+" +:+ decimal (Z.of_nat (String.length ds) - 1)
  | EmptyString => ds
  end.

Definition Number_toString_pos (x : Z) : string :=
  if x <? 2 ^ 53 then decimal x
  else
    let len := String.length (decimal x) in
    let c := shortest len 1 (Z.of_nat len) x in
    if (String.length (decimal c) <=? 21)%nat then decimal c else exponential c.

Definition Number_toString (n : Z) : string :=
  if n <? 0 then "-" +:+ Number_toString_pos (- n) else Number_toString_pos n.

Fixpoint join (sep : string) (l : list string) : string :=
  match l with
  | [] => ""
  | [x] => x
  | x :: r => x +:+ sep +:+ join sep r
  end.

(** ToString (and ToPrimitive, which for these values ends in the same
    call).  An array joins its elements with commas, [null] and
    [undefined] elements giving the empty string.  A plain object gives
    the fixed text of [Object.prototype.toString], unless it has a key
    [toString] of its own: a parsed value is never callable, the
    object then has no primitive and a [TypeError] is thrown. *)
Fixpoint to_string (v : value) : result string :=
  match v with
  | Undefined => Ok "undefined"
  | Null => Ok "null"
  | Bool true => Ok "true"
  | Bool false => Ok "false"
  | Num n => Ok (Number_toString n)
  | Str s => Ok s
  | Arr l =>
      strs ← (fix elements (l : list value) : result (list string) :=
                match l with
                | [] => Ok []
                | e :: r =>
                    s ← match e with
                        | Undefined | Null => Ok ""
                        | _ => to_string e
                        end;
                    strs ← elements r;
                    Ok (s :: strs)
                end) l;
      Ok (join "," strs)
  | Obj o =>
      match o !! "toString" with
      | Some _ => Throw TypeError
      | None => Ok "[object Object]"
      end
  end.

(** *** String.prototype.trim on UTF-8 text *)

Definition byte_is (c : ascii) (n : N) : bool := (N_of_ascii c =? n)%N.

(** One white-space or line-terminator character at the head of [s]:
    the rest of the string after it. *)
Definition strip_space (s : string) : option string :=
  match s with
  | String c r =>
      let n := N_of_ascii c in
      if ((9 <=? n) && (n <=? 13) || (n =? 32))%N then Some r
      else match r with
      | String c1 r1 =>
          if byte_is c 194 && byte_is c1 160 then Some r1          (* U+00A0 *)
          else match r1 with
          | String c2 r2 =>
              let n1 := N_of_ascii c1 in
              let n2 := N_of_ascii c2 in
              if ((n =? 225) && (n1 =? 154) && (n2 =? 128)          (* U+1680 *)
                  || (n =? 226) && (n1 =? 128)
                     && ((128 <=? n2) && (n2 <=? 138)               (* U+2000..200A *)
                         || (n2 =? 168) || (n2 =? 169)              (* U+2028, U+2029 *)
                         || (n2 =? 175))                            (* U+202F *)
                  || (n =? 226) && (n1 =? 129) && (n2 =? 159)       (* U+205F *)
                  || (n =? 227) && (n1 =? 128) && (n2 =? 128)       (* U+3000 *)
                  || (n =? 239) && (n1 =? 187) && (n2 =? 191))%N    (* U+FEFF *)
              then Some r2 else None
          | EmptyString => None
          end
      | EmptyString => None
      end
  | EmptyString => None
  end.

Fixpoint trimStart_fuel (fuel : nat) (s : string) : string :=
  match fuel with
  | O => s
  | S k => match strip_space s with
           | Some r => trimStart_fuel k r
           | None => s
           end
  end.

Definition trimStart (s : string) : string := trimStart_fuel (String.length s) s.

Fixpoint trimEnd (s : string) : string :=
  match s with
  | EmptyString => EmptyString
  | String c r => if String.eqb (trimStart s) "" then "" else String c (trimEnd r)
  end.

Definition trim (s : string) : string := trimEnd (trimStart s).

(** *** Dates

    A [Date] object is its time value in milliseconds, [None] for an
    Invalid Date (time value NaN). *)

Definition Date : Type := option Z.

Definition TimeClip (t : Z) : Date :=
  if Z.abs t <=? 8640000000000000 then Some t else None.

(** [a < b] on two Date objects: the comparison of their time values,
    false as soon as one of them is NaN. *)
Definition Date_lt (a b : Date) : bool :=
  match a, b with
  | Some x, Some y => x <? y
  | _, _ => false
  end.

Section Date.

(** [Date.parse]: the time value of a date string, [None] for NaN. *)
Variable Date_parse : string -> Date.

(** [new Date(v)] with one argument that is not itself a Date: a string
    (or an object, through its primitive, which may throw) is parsed,
    anything else goes through ToNumber and TimeClip. *)
Definition new_Date (v : value) : result Date :=
  match v with
  | Undefined => Ok None
  | Null => Ok (TimeClip 0)
  | Bool b => Ok (TimeClip (if b then 1 else 0))
  | Num n => Ok (TimeClip n)
  | Str s => Ok (Date_parse s)
  | Arr _ | Obj _ => s ← to_string v; Ok (Date_parse s)
  end.

End Date.

End JS.

(** ** The Mongoose side: errors, schema and collection *)

(** A stored task: the four paths of [taskSchema].  [completed] has no
    [required] validator, so it can hold [null] ([None]). *)
Record Task : Type := mkTask {
  title : string;
  date : Z;
  createdAt : Z;
  completed : option bool
}.

Abbreviation ObjectId := N (only parsing).

(** A document as the routes return it: [_id] and the schema paths. *)
Definition Document : Type := ObjectId * Task.

(** *** Casting to the schema types *)

(** Cast to [String]: a string is kept, a number or a boolean is
    printed, an object stands for its non-empty string [_id] if it has
    one, every other array or object is refused. *)
Definition castString (v : JS.value) : result string :=
  match v with
  | JS.Str s => Ok s
  | JS.Num n => Ok (JS.Number_toString n)
  | JS.Bool b => Ok (if b then "true" else "false")
  | JS.Obj o =>
      match o !! "_id" with
      | Some (JS.Str s) => if String.eqb s "" then Throw CastError else Ok s
      | _ => Throw CastError
      end
  | _ => Throw CastError
  end.

(** Cast to [Boolean]: [true], ["true"], [1], ["1"], ["yes"] are true,
    [false], ["false"], [0], ["0"], ["no"] are false. *)
Definition castBoolean (v : JS.value) : result bool :=
  match v with
  | JS.Bool b => Ok b
  | JS.Num 1 => Ok true
  | JS.Num 0 => Ok false
  | JS.Str s =>
      if bool_decide (s ∈ ["true"; "1"; "yes"]) then Ok true
      else if bool_decide (s ∈ ["false"; "0"; "no"]) then Ok false
      else Throw CastError
  | _ => Throw CastError
  end.

(** Cast of a Date object to [Date]: an Invalid Date is refused. *)
Definition castDate (d : JS.Date) : result Z :=
  match d with
  | Some t => Ok t
  | None => Throw CastError
  end.

(** A path of a document or of an update after setters and cast:
    not given, given as [null], or given a value. *)
Inductive entry (A : Type) : Type :=
  | Absent
  | IsNull
  | Value (a : A).

Arguments Absent {A}.
Arguments IsNull {A}.
Arguments Value {A} a.

(** [title: { type: String, required: true, trim: true }]: the trim
    setter casts what is not a string and trims the result. *)
Definition title_path (v : JS.value) : result (entry string) :=
  match v with
  | JS.Undefined => Ok Absent
  | JS.Null => Ok IsNull
  | _ => s ← castString v; Ok (Value (JS.trim s))
  end.

(** [completed: { type: Boolean, default: false }]. *)
Definition completed_path (v : JS.value) : result (entry bool) :=
  match v with
  | JS.Undefined => Ok Absent
  | JS.Null => Ok IsNull
  | _ => b ← castBoolean v; Ok (Value b)
  end.

(** [date: { type: Date, required: true }], given a Date object or
    [undefined]. *)
Definition date_path (d : option JS.Date) : result (entry Z) :=
  match d with
  | None => Ok Absent
  | Some d => t ← castDate d; Ok (Value t)
  end.

(** The [required] validator of a String path: a non-empty string. *)
Definition required_string (s : string) : bool := negb (String.eqb s "").

(** *** Documents *)

(** [new Task({ title, date })]: the paths are set through the schema,
    [createdAt] and [completed] take their defaults.  A value that does
    not cast, or a required path left empty, makes the document invalid;
    [save] is what reports it. *)
Definition new_Task (title : JS.value) (date : JS.Date) (Date_now : Z)
  : result Task :=
  match title_path title, date_path (Some date) with
  | Ok (Value s), Ok (Value d) =>
      if required_string s
      then Ok {| title := s; date := d; createdAt := Date_now; completed := Some false |}
      else Throw ValidationError
  | _, _ => Throw ValidationError
  end.

(** [doc.save()]: validation, then the insertion under the [_id] the
    document was given, an identifier no stored document has. *)
Definition save (doc : result Task) (db : gmap ObjectId Task)
  : result (Document * gmap ObjectId Task) :=
  t ← doc;
  let _id : ObjectId := fresh (dom db) in
  Ok ((_id, t), <[_id := t]> db).

(** The update document after casting: the [$set] of each path. *)
Record Update : Type := mkUpdate {
  set_title : entry string;
  set_date : entry Z;
  set_completed : entry bool
}.

(** Casting [{ title, date, completed }]: a key whose value is
    [undefined] is dropped, the others are cast to their path. *)
Definition castUpdate (title : JS.value) (date : option JS.Date)
  (completed : JS.value) : result Update :=
  c ← completed_path completed;
  d ← date_path date;
  s ← title_path title;
  Ok {| set_title := s; set_date := d; set_completed := c |}.

(** [runValidators: true]: the validators of the paths the update
    sets.  Only [title] can fail here: [null] or the empty string. *)
Definition updateValidators (u : Update) : result unit :=
  match set_title u, set_date u with
  | IsNull, _ | _, IsNull => Throw ValidationError
  | Value s, _ => if required_string s then Ok () else Throw ValidationError
  | Absent, _ => Ok ()
  end.

(** The effect of the [$set] on one path and on the stored task. *)
Definition set_path {A : Type} (e : entry A) (old : A) : A :=
  match e with
  | Value a => a
  | _ => old
  end.

Definition applyUpdate (u : Update) (t : Task) : Task :=
  {| title := set_path (set_title u) (title t);
     date := set_path (set_date u) (date t);
     createdAt := createdAt t;
     completed := match set_completed u with
                  | Absent => completed t
                  | IsNull => None
                  | Value b => Some b
                  end |}.

(** *** The sort of [find().sort({ date: 1, createdAt: -1 })] *)

Definition sort_le (a b : Document) : Prop :=
  date a.2 < date b.2 ∨ (date a.2 = date b.2 ∧ createdAt b.2 ≤ createdAt a.2).

#[global] Instance sort_le_dec : RelDecision sort_le.
Proof. intros a b. unfold sort_le. apply _. Defined.

Definition find_sort (db : gmap ObjectId Task) : list Document :=
  merge_sort sort_le (map_to_list db).

(** ** HTTP responses *)

(** The [message] member of an error envelope: a text of the handler,
    or the message of the error it caught. *)
Inductive message : Type :=
  | Text (s : string)
  | ErrorMessage (e : Error).

(** The JSON envelopes the routes send. *)
Inductive envelope : Type :=
  | TaskList (count : nat) (data : list Document)    (* success, count, data *)
  | TaskData (data : Document)                        (* success, data *)
  | TaskSaved (msg : string) (data : Document)        (* success, message, data *)
  | TaskRemoved (msg : string) (id : ObjectId) (title : string)
                                                      (* success, message, data: {id, title} *)
  | Failure (error : string) (msg : message).         (* success: false, error, message *)

Definition success (e : envelope) : bool :=
  match e with
  | Failure _ _ => false
  | _ => true
  end.

Record response : Type := mkResponse {
  status : Z;
  body : envelope
}.

(** [res.json(e)] and [res.status(n).json(e)]. *)
Definition res_json (e : envelope) : response := {| status := 200; body := e |}.

Definition res_status_json (n : Z) (e : envelope) : response :=
  {| status := n; body := e |}.

(** ** The routes *)

Section Routes.

Variable Date_parse : string -> JS.Date.

(** The cast of the [:id] path parameter to an ObjectId, [None] when
    the text is not a well-formed identifier. *)
Variable castObjectId : string -> option ObjectId.

(** *** Model operations *)

Definition findById (id : string) (db : gmap ObjectId Task)
  : result (option Document) :=
  match castObjectId id with
  | None => Throw CastError
  | Some _id => Ok (pair _id <$> db !! _id)
  end.

(** [findByIdAndUpdate(id, update, { new: true, runValidators: true })]:
    the filter and the update are cast and the update validated before
    anything is looked up; the document after the update is returned,
    or [null] when none matches. *)
Definition findByIdAndUpdate (id : string) (title : JS.value)
  (date : option JS.Date) (completed : JS.value) (db : gmap ObjectId Task)
  : result (option Document * gmap ObjectId Task) :=
  match castObjectId id with
  | None => Throw CastError
  | Some _id =>
      u ← castUpdate title date completed;
      _ ← updateValidators u;
      match db !! _id with
      | None => Ok (None, db)
      | Some t => let t' := applyUpdate u t in Ok (Some (_id, t'), <[_id := t']> db)
      end
  end.

Definition findByIdAndDelete (id : string) (db : gmap ObjectId Task)
  : result (option Document * gmap ObjectId Task) :=
  match castObjectId id with
  | None => Throw CastError
  | Some _id =>
      match db !! _id with
      | None => Ok (None, db)
      | Some t => Ok (Some (_id, t), delete _id db)
      end
  end.

(** *** GET /tasks *)

Definition get_tasks (db : gmap ObjectId Task) : response * gmap ObjectId Task :=
  let tasks := find_sort db in
  (res_json (TaskList (length tasks) tasks), db).

Definition not_found (id : string) : response :=
  res_status_json 404
    (Failure "Tarea no encontrada" (Text ("No se encontró la tarea con ID: " +:+ id))).

(** *** GET /tasks/:id *)

Definition get_tasks_id (id : string) (db : gmap ObjectId Task)
  : response * gmap ObjectId Task :=
  match findById id db with
  | Ok None => (not_found id, db)
  | Ok (Some task) => (res_json (TaskData task), db)
  | Throw error =>
      (res_status_json 500 (Failure "Error al obtener la tarea" (ErrorMessage error)), db)
  end.

(** *** POST /tasks

    [now] is what [new Date()] reads in the date check, [Date_now] what
    the [createdAt] default reads when the document is built.  The
    first statement of the [try] prints the title into the log line,
    which converts it to a string. *)

Definition post_tasks (now Date_now : Z) (req_body : gmap string JS.value)
  (db : gmap ObjectId Task) : response * gmap ObjectId Task :=
  let title := JS.prop req_body "title" in
  let date := JS.prop req_body "date" in
  try_catch
    (_ ← JS.to_string title;
     if negb (JS.truthy title) || negb (JS.truthy date) then
       Ok (res_status_json 400
             (Failure "Datos incompletos" (Text "El título y la fecha son obligatorios")),
           db)
     else
       taskDate ← JS.new_Date Date_parse date;
       if JS.Date_lt taskDate (Some now) then
         Ok (res_status_json 400
               (Failure "Fecha inválida" (Text "La fecha debe ser futura")), db)
       else
         let newTask := new_Task title taskDate Date_now in
         saved ← save newTask db;
         let (savedTask, db') := saved : Document * gmap ObjectId Task in
         Ok (res_status_json 201 (TaskSaved "Tarea creada exitosamente" savedTask), db'))
    (fun error =>
       (res_status_json 500 (Failure "Error al crear la tarea" (ErrorMessage error)), db)).

(** *** PUT /tasks/:id *)

(** The date check: only a date that was sent (a truthy one) is
    looked at; it is converted, and refused when it is before now. *)
Definition date_check (now : Z) (date : JS.value) : result bool :=
  if JS.truthy date then
    taskDate ← JS.new_Date Date_parse date;
    Ok (JS.Date_lt taskDate (Some now))
  else Ok false.

(** [date ? new Date(date) : undefined], the [date] of the update. *)
Definition date_to_set (date : JS.value) : result (option JS.Date) :=
  if JS.truthy date then d ← JS.new_Date Date_parse date; Ok (Some d) else Ok None.

Definition put_tasks_id (now : Z) (id : string) (req_body : gmap string JS.value)
  (db : gmap ObjectId Task) : response * gmap ObjectId Task :=
  let title := JS.prop req_body "title" in
  let date := JS.prop req_body "date" in
  let completed := JS.prop req_body "completed" in
  try_catch
    (refused ← date_check now date;
     if (refused : bool) then
       Ok (res_status_json 400
             (Failure "Fecha inválida" (Text "La fecha debe ser futura")), db)
     else
       date' ← date_to_set date;
       updated ← findByIdAndUpdate id title date' completed db;
       let (updatedTask, db') := updated : option Document * gmap ObjectId Task in
       match updatedTask with
       | None => Ok (not_found id, db')
       | Some updatedTask =>
           Ok (res_json (TaskSaved "Tarea actualizada exitosamente" updatedTask), db')
       end)
    (fun error =>
       (res_status_json 500 (Failure "Error al actualizar la tarea" (ErrorMessage error)), db)).

(** What the storage call does with the update before it looks the
    document up: the date to set, the cast of the three keys, the
    validators of the keys that are set. *)
Definition checked_update (title date completed : JS.value) : result Update :=
  date' ← date_to_set date;
  u ← castUpdate title date' completed;
  _ ← updateValidators u;
  Ok u.

(** Whether the date check answers 400. *)
Definition date_refused (now : Z) (date : JS.value) : bool :=
  match date_check now date with
  | Ok refused => refused
  | Throw _ => false
  end.

(** What lets an update through to the collection, field by field.
    The date: not sent, or a valid instant that is not before now. *)
Definition date_accepted (now : Z) (date : JS.value) : bool :=
  if JS.truthy date then
    match JS.new_Date Date_parse date with
    | Ok (Some t) => now <=? t
    | _ => false
    end
  else true.

(** The title: not in the body, or a value that casts to a string which
    is not empty once trimmed. *)
Definition title_accepted (title : JS.value) : bool :=
  match title with
  | JS.Undefined => true
  | JS.Null => false
  | _ => match castString title with
         | Ok s => required_string (JS.trim s)
         | Throw _ => false
         end
  end.

(** The flag: not in the body, [null], or a value that casts to a
    boolean. *)
Definition completed_accepted (completed : JS.value) : bool :=
  match completed with
  | JS.Undefined | JS.Null => true
  | _ => match castBoolean completed with
         | Ok _ => true
         | Throw _ => false
         end
  end.

(** *** DELETE /tasks/:id *)

Definition delete_tasks_id (id : string) (db : gmap ObjectId Task)
  : response * gmap ObjectId Task :=
  match findByIdAndDelete id db with
  | Ok (None, db') => (not_found id, db')
  | Ok (Some deletedTask, db') =>
      (res_json (TaskRemoved "Tarea eliminada correctamente"
                   deletedTask.1 (title deletedTask.2)), db')
  | Throw error =>
      (res_status_json 500 (Failure "Error al eliminar la tarea" (ErrorMessage error)), db)
  end.

End Routes.

(** ** The remaining routes and the application as a whole *)

(** The body of [GET /]: a fixed description of the service. *)
Record listing : Type := mkListing {
  root_message : string;
  version : string;
  endpoints : list (string * string)
}.

(** [GET /]. *)
Definition get_root : Z * listing :=
  (200,
   {| root_message := "🎉 EulisT Backend funcionando correctamente!";
      version := "1.0.0";
      endpoints :=
        [("GET /tasks", "Obtener todas las tareas");
         ("GET /tasks/:id", "Obtener tarea específica");
         ("POST /tasks", "Crear nueva tarea");
         ("PUT /tasks/:id", "Actualizar tarea");
         ("DELETE /tasks/:id", "Eliminar tarea")] |}).

(** The last middleware: whatever no route took is answered 404 with
    the URL that was asked for. *)
Definition route_not_found (originalUrl : string) : response :=
  res_status_json 404
    (Failure "Ruta no encontrada" (Text ("La ruta " +:+ originalUrl +:+ " no existe"))).

(** A request once Express has routed it: the route it matched with
    its path parameter, its parsed body and the clock readings its
    handler takes; or no route at all. *)
Inductive request : Type :=
  | GET_tasks
  | GET_tasks_id (id : string)
  | POST_tasks (now Date_now : Z) (req_body : gmap string JS.value)
  | PUT_tasks_id (now : Z) (id : string) (req_body : gmap string JS.value)
  | DELETE_tasks_id (id : string)
  | GET_root
  | Unmatched (originalUrl : string).

Inductive reply : Type :=
  | Json (r : response)
  | Listing (code : Z) (l : listing).

Definition reply_status (r : reply) : Z :=
  match r with
  | Json r => status r
  | Listing code _ => code
  end.

(** Whether the answer is one of the [success: false] envelopes. *)
Definition reply_failed (r : reply) : bool :=
  match r with
  | Json r => negb (success (body r))
  | Listing _ _ => false
  end.

Section App.

Variable Date_parse : string -> JS.Date.
Variable castObjectId : string -> option ObjectId.

(** One request against the collection. *)
Definition handle (req : request) (db : gmap ObjectId Task)
  : reply * gmap ObjectId Task :=
  match req with
  | GET_tasks => let (r, db') := get_tasks db in (Json r, db')
  | GET_tasks_id id => let (r, db') := get_tasks_id castObjectId id db in (Json r, db')
  | POST_tasks now Date_now req_body =>
      let (r, db') := post_tasks Date_parse now Date_now req_body db in (Json r, db')
  | PUT_tasks_id now id req_body =>
      let (r, db') := put_tasks_id Date_parse castObjectId now id req_body db in
      (Json r, db')
  | DELETE_tasks_id id =>
      let (r, db') := delete_tasks_id castObjectId id db in (Json r, db')
  | GET_root => (Listing get_root.1 get_root.2, db)
  | Unmatched originalUrl => (Json (route_not_found originalUrl), db)
  end.

(** The requests of a session, one after the other: the answers in
    order and the collection at the end. *)
Fixpoint serve (reqs : list request) (db : gmap ObjectId Task)
  : list reply * gmap ObjectId Task :=
  match reqs with
  | [] => ([], db)
  | req :: reqs =>
      let (r, db') := handle req db in
      let (rs, db'') := serve reqs db' in
      (r :: rs, db'')
  end.

End App.

(** What the schema promises of a stored title: it is not empty and it
    has no white space at either end. *)
Definition title_ok (t : Task) : Prop :=
  title t ≠ "" ∧ JS.trim (title t) = title t.

(** ** A concrete environment for the examples *)

Module Sample.

(** A date parser that knows two ISO dates (their UTC midnight). *)
Definition Date_parse (s : string) : JS.Date :=
  if String.eqb s "2000-01-01" then Some 946684800000
  else if String.eqb s "2100-01-01" then Some 4102444800000
  else None.

Definition hex_digit (c : ascii) : option N :=
  let n := N_of_ascii c in
  if ((48 <=? n) && (n <=? 57))%N then Some (n - 48)%N
  else if ((97 <=? n) && (n <=? 102))%N then Some (n - 87)%N
  else if ((65 <=? n) && (n <=? 70))%N then Some (n - 55)%N
  else None.

Fixpoint hex_value (acc : N) (s : string) : option N :=
  match s with
  | EmptyString => Some acc
  | String c r =>
      match hex_digit c with
      | Some d => hex_value (16 * acc + d)%N r
      | None => None
      end
  end.

(** The cast of the 24 hexadecimal digits of an ObjectId. *)
Definition castObjectId (s : string) : option ObjectId :=
  if (String.length s =? 24)%nat then hex_value 0%N s else None.

(** 2025-11-02T00:00:00Z. *)
Definition now : Z := 1762041600000.

(** Two well-formed identifiers: the first one is stored, the second
    one is not. *)
Definition id_a : string := "000000000000000000000001".
Definition id_b : string := "000000000000000000000002".

Definition task_a : Task :=
  {| title := "comprar pan"; date := 4102444800000;
     createdAt := 1700000000000; completed := Some true |}.

Definition db : gmap ObjectId Task := {[ 1%N := task_a ]}.

End Sample.

(** ** Properties of the JavaScript layer *)

Example trim_blank : JS.trim "  	 " = "".
Proof. reflexivity. Qed.

Example trim_inner : JS.trim "  comprar pan  " = "comprar pan".
Proof. reflexivity. Qed.

Example castString_number : castString (JS.Num 2030) = Ok "2030".
Proof. reflexivity. Qed.

Example castBoolean_yes : castBoolean (JS.Str "yes") = Ok true.
Proof. reflexivity. Qed.

Example to_string_arr :
  JS.to_string (JS.Arr [JS.Num 2030; JS.Null; JS.Str "x"]) = Ok "2030,,x".
Proof. reflexivity. Qed.

(** An object with a [toString] key of its own has no primitive, and
    neither has an array that holds one. *)
Example to_string_throws :
  JS.to_string (JS.Arr [JS.Num 1; JS.Obj {[ "toString" := JS.Num 1 ]}]) = Throw TypeError.
Proof. reflexivity. Qed.

Example to_string_object : JS.to_string (JS.Obj {[ "valueOf" := JS.Num 1 ]}) = Ok "[object Object]".
Proof. reflexivity. Qed.

(** Doubles from 2^53 on print with their shortest digits, from 10^21
    on in exponential form. *)
Example Number_toString_samples :
  JS.Number_toString 2030 = "2030"
  ∧ JS.Number_toString (-7) = "-7"
  ∧ JS.Number_toString (2 ^ 53) = "9007199254740992"
  ∧ JS.Number_toString (2 ^ 60) = "1152921504606847000"
  ∧ JS.Number_toString (2 ^ 64) = "18446744073709552000"
  ∧ JS.Number_toString (10 ^ 21) = "1e+21"
  ∧ JS.Number_toString (2 ^ 70) = "1.1805916207174113e+21"
  ∧ JS.Number_toString 99999999999999991611392 = "1e+23".
Proof. by vm_compute. Qed.

Lemma prop_missing (o : gmap string JS.value) k :
  o !! k = None → JS.prop o k = JS.Undefined.
Proof. unfold JS.prop. by intros ->. Qed.

Lemma Date_lt_Some_iff (d : JS.Date) now :
  JS.Date_lt d (Some now) = true ↔ ∃ t, d = Some t ∧ t < now.
Proof.
  destruct d as [t|]; simpl.
  - rewrite Z.ltb_lt. split; [eauto | by intros (? & [= <-] & ?)].
  - split; [done | by intros (? & ? & ?)].
Qed.

(** ** The order of the list route *)

#[global] Instance sort_le_total : Total sort_le.
Proof. intros [? a] [? b]. unfold sort_le. simpl. lia. Qed.

#[global] Instance sort_le_trans : Transitive sort_le.
Proof. intros [? a] [? b] [? c]. unfold sort_le. simpl. lia. Qed.

Lemma StronglySorted_lookup_lt {A} (R : relation A) (l : list A) i j a b :
  StronglySorted R l → (i < j)%nat →
  l !! i = Some a → l !! j = Some b → R a b.
Proof.
  intros Hs. revert i j.
  induction Hs as [|x l Hs IH Hx]; intros i j Hij Hi Hj; [done|].
  destruct j as [|j]; [lia|]. simpl in Hj.
  destruct i as [|i]; simpl in Hi.
  - injection Hi as <-. rewrite Forall_forall in Hx.
    apply Hx. eapply list_elem_of_lookup_2; eauto.
  - apply (IH i j); [lia | done | done].
Qed.

Lemma find_sort_perm (db : gmap ObjectId Task) : find_sort db ≡ₚ map_to_list db.
Proof. apply merge_sort_Permutation. Qed.

Lemma find_sort_elem (db : gmap ObjectId Task) (i : ObjectId) (t : Task) :
  (i, t) ∈ find_sort db ↔ db !! i = Some t.
Proof. rewrite find_sort_perm. apply elem_of_map_to_list. Qed.

Lemma find_sort_length (db : gmap ObjectId Task) : length (find_sort db) = size db.
Proof. rewrite find_sort_perm. apply length_map_to_list. Qed.

(** C3.  The list route answers 200 with [success: true]; [data] holds
    exactly the stored tasks, [count] is their number, and in [data] an
    earlier document never has a later due date than a later one, and
    of two documents with the same due date the earlier one in the list
    was created last (its [createdAt] is the greater or equal one). *)
Theorem get_tasks_sorted (db : gmap ObjectId Task) :
  ∃ data : list Document,
    get_tasks db = (res_json (TaskList (length data) data), db)
    ∧ status (get_tasks db).1 = 200
    ∧ success (body (get_tasks db).1) = true
    ∧ length data = size db
    ∧ (∀ i t, (i, t) ∈ data ↔ db !! i = Some t)
    ∧ data ≡ₚ map_to_list db
    ∧ ∀ (m n : nat) (a b : Document),
        (m < n)%nat → data !! m = Some a → data !! n = Some b →
        date a.2 ≤ date b.2
        ∧ (date a.2 = date b.2 → createdAt b.2 ≤ createdAt a.2).
Proof.
  exists (find_sort db). repeat split; try done.
  - apply find_sort_length.
  - by apply find_sort_elem.
  - by apply find_sort_elem.
  - apply find_sort_perm.
  - assert (sort_le a b) as Hab.
    { eapply StronglySorted_lookup_lt; [|done..].
      apply StronglySorted_merge_sort; apply _. }
    unfold sort_le in Hab. lia.
  - assert (sort_le a b) as Hab.
    { eapply StronglySorted_lookup_lt; [|done..].
      apply StronglySorted_merge_sort; apply _. }
    unfold sort_le in Hab. lia.
Qed.

Example get_tasks_three :
  let t1 := {| title := "a"; date := 20; createdAt := 1; completed := Some false |} in
  let t2 := {| title := "b"; date := 10; createdAt := 2; completed := Some false |} in
  let t3 := {| title := "c"; date := 20; createdAt := 3; completed := None |} in
  (get_tasks {[ 1%N := t1; 2%N := t2; 3%N := t3 ]}).1
  = res_json (TaskList 3 [(2%N, t2); (3%N, t3); (1%N, t1)]).
Proof. vm_compute. reflexivity. Qed.

(** ** Properties of the routes *)

Lemma save_fresh (t : Task) (db : gmap ObjectId Task) :
  ∃ _id : ObjectId,
    db !! _id = None ∧ save (Ok t) db = Ok ((_id, t), <[_id := t]> db).
Proof.
  exists (fresh (dom db)). split; [|done].
  apply not_elem_of_dom, is_fresh.
Qed.

Lemma new_Task_valid (v : JS.value) (s : string) (t Date_now : Z) :
  title_path v = Ok (Value s) → s ≠ "" →
  new_Task v (Some t) Date_now
  = Ok {| title := s; date := t; createdAt := Date_now; completed := Some false |}.
Proof.
  intros Hv Hs. unfold new_Task. rewrite Hv. simpl.
  unfold required_string. by destruct (String.eqb_spec s "").
Qed.

(** ** String.prototype.trim *)

Lemma strip_space_shorter (s r : string) :
  JS.strip_space s = Some r → (String.length r < String.length s)%nat.
Proof.
  unfold JS.strip_space. intros H.
  repeat (case_match; simplify_eq); cbn [String.length]; lia.
Qed.

Lemma strip_space_app (s r z : string) :
  JS.strip_space s = Some r → JS.strip_space (s +:+ z) = Some (r +:+ z).
Proof.
  unfold JS.strip_space. intros H.
  destruct s as [|c [|c1 [|c2 r2]]]; simpl in *;
    repeat (case_match; simplify_eq); done.
Qed.

Lemma trimStart_fuel_any (n m : nat) (s : string) :
  (String.length s ≤ n)%nat → (String.length s ≤ m)%nat →
  JS.trimStart_fuel n s = JS.trimStart_fuel m s.
Proof.
  revert m s. induction n as [|n IH]; intros m s Hn Hm.
  - destruct s; [by destruct m | simpl in Hn; lia].
  - destruct m as [|m].
    + destruct s; [done | simpl in Hm; lia].
    + cbn [JS.trimStart_fuel].
      destruct (JS.strip_space s) as [r|] eqn:Hs; [|done].
      apply strip_space_shorter in Hs. apply IH; lia.
Qed.

Lemma trimStart_fuel_enough (n : nat) (s : string) :
  (String.length s ≤ n)%nat → JS.trimStart_fuel n s = JS.trimStart s.
Proof. intros Hn. by apply trimStart_fuel_any. Qed.

Lemma trimStart_None (s : string) : JS.strip_space s = None → JS.trimStart s = s.
Proof.
  intros H. unfold JS.trimStart. destruct s as [|c r]; [done|].
  cbn [String.length JS.trimStart_fuel]. by rewrite H.
Qed.

Lemma trimStart_Some (s r : string) :
  JS.strip_space s = Some r → JS.trimStart s = JS.trimStart r.
Proof.
  intros H. unfold JS.trimStart at 1. destruct s as [|c s]; [done|].
  cbn [String.length JS.trimStart_fuel]. rewrite H.
  apply trimStart_fuel_enough. apply strip_space_shorter in H.
  cbn [String.length] in H. lia.
Qed.

Lemma strip_space_trimStart (s : string) : JS.strip_space (JS.trimStart s) = None.
Proof.
  remember (String.length s) as n eqn:Hn. revert s Hn.
  induction (lt_wf n) as [n _ IH]. intros s ->.
  destruct (JS.strip_space s) as [r|] eqn:Hs.
  - rewrite (trimStart_Some _ _ Hs).
    eapply IH; [|done]. by apply strip_space_shorter.
  - by rewrite trimStart_None.
Qed.

(** White space followed by white space is white space. *)
Lemma trimStart_app_blank (a z : string) :
  JS.trimStart a = "" → JS.trimStart z = "" → JS.trimStart (a +:+ z) = "".
Proof.
  remember (String.length a) as n eqn:Hn. revert a Hn.
  induction (lt_wf n) as [n _ IH]. intros a -> Ha Hz.
  destruct (JS.strip_space a) as [r|] eqn:Hs.
  - rewrite (trimStart_Some _ _ (strip_space_app _ _ z Hs)).
    eapply IH; [by eapply strip_space_shorter | done | | done].
    by rewrite <- (trimStart_Some _ _ Hs).
  - rewrite trimStart_None in Ha by done. by subst a.
Qed.

Lemma append_cons (c : ascii) (a z : string) :
  String c a +:+ z = String c (a +:+ z).
Proof. reflexivity. Qed.

(** [trimEnd] cuts a blank suffix off. *)
Lemma trimEnd_suffix (s : string) :
  ∃ z, s = JS.trimEnd s +:+ z ∧ JS.trimStart z = "".
Proof.
  induction s as [|c r (z & Hz & Hb)].
  - by exists "".
  - cbn [JS.trimEnd].
    destruct (String.eqb_spec (JS.trimStart (String c r)) "") as [He|He].
    + by exists (String c r).
    + exists z. split; [|done]. rewrite append_cons. by f_equal.
Qed.

Lemma trimEnd_idemp (s : string) : JS.trimEnd (JS.trimEnd s) = JS.trimEnd s.
Proof.
  induction s as [|c r IH]; [done|].
  cbn [JS.trimEnd].
  destruct (String.eqb_spec (JS.trimStart (String c r)) "") as [He|He]; [done|].
  cbn [JS.trimEnd].
  destruct (String.eqb_spec (JS.trimStart (String c (JS.trimEnd r))) "") as [He'|He'].
  - destruct He. destruct (trimEnd_suffix r) as (z & Hz & Hb).
    rewrite Hz, <- append_cons.
    by apply (trimStart_app_blank (String c (JS.trimEnd r)) z).
  - by rewrite IH.
Qed.

Lemma trim_idemp (s : string) : JS.trim (JS.trim s) = JS.trim s.
Proof.
  unfold JS.trim.
  assert (JS.strip_space (JS.trimEnd (JS.trimStart s)) = None) as Hn.
  { destruct (JS.strip_space (JS.trimEnd (JS.trimStart s))) as [r|] eqn:Hs; [|done].
    destruct (trimEnd_suffix (JS.trimStart s)) as (z & Hz & _).
    apply (strip_space_app _ _ z) in Hs. rewrite <- Hz in Hs.
    by rewrite strip_space_trimStart in Hs. }
  rewrite (trimStart_None _ Hn). apply trimEnd_idemp.
Qed.

(** ** What a stored title looks like *)

Lemma title_path_trimmed (v : JS.value) (s : string) :
  title_path v = Ok (Value s) → JS.trim s = s.
Proof.
  unfold title_path. intros H.
  destruct v; try done;
    (destruct (castString _) as [s'|]; [|done]; simpl in H;
     injection H as <-; apply trim_idemp).
Qed.

Lemma required_string_true (s : string) : required_string s = true ↔ s ≠ "".
Proof. unfold required_string. by destruct (String.eqb_spec s ""). Qed.

Lemma new_Task_Ok (v : JS.value) (d : JS.Date) (Date_now : Z) (t : Task) :
  new_Task v d Date_now = Ok t →
  title_path v = Ok (Value (title t)) ∧ title t ≠ "" ∧ d = Some (date t)
  ∧ createdAt t = Date_now ∧ completed t = Some false.
Proof.
  unfold new_Task. intros H.
  destruct (title_path v) as [[| |s]|]; try done;
    try (by destruct (date_path (Some d)) as [[| |?]|]).
  destruct d as [x|]; simpl in H; [|done].
  destruct (required_string s) eqn:Hs; [|done].
  injection H as <-. simpl. by apply required_string_true in Hs.
Qed.

Lemma applyUpdate_idemp (u : Update) (t : Task) :
  applyUpdate u (applyUpdate u t) = applyUpdate u t.
Proof.
  unfold applyUpdate. simpl.
  by destruct (set_title u), (set_date u), (set_completed u).
Qed.

Lemma applyUpdate_absent (t : Task) :
  applyUpdate {| set_title := Absent; set_date := Absent; set_completed := Absent |} t = t.
Proof. by destruct t. Qed.

Lemma updateValidators_Ok (u : Update) :
  updateValidators u = Ok () →
  match set_title u with
  | Absent => True
  | IsNull => False
  | Value s => s ≠ ""
  end.
Proof.
  unfold updateValidators.
  destruct (set_title u) as [| |s], (set_date u); try done;
    destruct (required_string s) eqn:Hs; try done;
    intros _; by apply required_string_true.
Qed.

Lemma applyUpdate_title_ok (v_title : JS.value) (u : Update) (t : Task) :
  title_path v_title = Ok (set_title u) → updateValidators u = Ok () →
  title_ok t → title_ok (applyUpdate u t).
Proof.
  intros Hs Hv%updateValidators_Ok Ht. unfold title_ok, applyUpdate. simpl.
  destruct (set_title u) as [| |s]; simpl; [done..|].
  split; [done|]. by eapply title_path_trimmed.
Qed.

Lemma completed_path_Throw (v : JS.value) (e : Error) :
  completed_path v = Throw e → e = CastError.
Proof.
  unfold completed_path, castBoolean. intros H.
  repeat (case_match; simplify_eq); simpl in *; by simplify_eq.
Qed.

Section RouteProperties.

Context (Date_parse : string → JS.Date) (castObjectId : string → option ObjectId).

(** *** Create *)

(** The create handler, statement by statement. *)
Lemma post_tasks_unfold (now Date_now : Z)
  (req_body : gmap string JS.value) (db : gmap ObjectId Task) :
  post_tasks Date_parse now Date_now req_body db
  = match JS.to_string (JS.prop req_body "title") with
    | Throw error =>
        (res_status_json 500 (Failure "Error al crear la tarea" (ErrorMessage error)), db)
    | Ok _ =>
        if negb (JS.truthy (JS.prop req_body "title"))
           || negb (JS.truthy (JS.prop req_body "date"))
        then
          (res_status_json 400
             (Failure "Datos incompletos" (Text "El título y la fecha son obligatorios")),
           db)
        else
          match JS.new_Date Date_parse (JS.prop req_body "date") with
          | Throw error =>
              (res_status_json 500
                 (Failure "Error al crear la tarea" (ErrorMessage error)), db)
          | Ok taskDate =>
              if JS.Date_lt taskDate (Some now) then
                (res_status_json 400
                   (Failure "Fecha inválida" (Text "La fecha debe ser futura")), db)
              else
                match save (new_Task (JS.prop req_body "title") taskDate Date_now) db with
                | Ok (savedTask, db') =>
                    (res_status_json 201
                       (TaskSaved "Tarea creada exitosamente" savedTask), db')
                | Throw error =>
                    (res_status_json 500
                       (Failure "Error al crear la tarea" (ErrorMessage error)), db)
                end
          end
    end.
Proof.
  unfold post_tasks, try_catch.
  destruct (JS.to_string _) as [logged|e]; simpl; [|done].
  destruct (negb _ || negb _); [done|].
  destruct (JS.new_Date _ _) as [taskDate|e]; simpl; [|done].
  destruct (JS.Date_lt _ _); [done|].
  by destruct (save _ _) as [[? ?]|].
Qed.

Lemma new_Task_Throw (v : JS.value) (d : JS.Date) (Date_now : Z) (e : Error) :
  new_Task v d Date_now = Throw e → e = ValidationError.
Proof.
  unfold new_Task. intros H.
  repeat (case_match; simplify_eq); done.
Qed.

Lemma new_Task_refused (v : JS.value) (t Date_now : Z) :
  JS.truthy v = true → title_accepted v = false →
  new_Task v (Some t) Date_now = Throw ValidationError.
Proof.
  unfold title_accepted, new_Task, title_path. intros Hv H.
  destruct v; try done;
    (destruct (castString _) as [s'|]; simpl in *; [|done]; by rewrite H).
Qed.


(** C1, as amended.  For a create request with a title and a date
    (both truthy) whose title can be printed: when the parsed date is
    strictly before now the answer is 400 with the message "La fecha
    debe ser futura" and nothing is stored; when the parsed date is a
    valid instant strictly after now and the title passes the schema
    (it casts to a string that is not empty once trimmed), a new task
    with that trimmed title, that date, [completed = false] and the
    creation time is stored under an unused identifier and returned
    with 201; when the date is strictly after now and the title does
    not pass the schema, or when the date does not parse, the answer is
    500 with the validation error of [save] and nothing is stored. *)
Theorem post_tasks_date_check (now Date_now : Z)
  (req_body : gmap string JS.value) (db : gmap ObjectId Task) (logged : string) :
  let title := JS.prop req_body "title" in
  let date := JS.prop req_body "date" in
  JS.truthy title = true → JS.truthy date = true →
  JS.to_string title = Ok logged →
  (∀ t, JS.new_Date Date_parse date = Ok (Some t) → t < now →
     post_tasks Date_parse now Date_now req_body db
     = (res_status_json 400 (Failure "Fecha inválida" (Text "La fecha debe ser futura")), db))
  ∧ (∀ t s, JS.new_Date Date_parse date = Ok (Some t) → now < t →
       title_path title = Ok (Value s) → s ≠ "" →
       let task := {| title := s; date := t; createdAt := Date_now;
                      completed := Some false |} in
       ∃ _id : ObjectId,
         db !! _id = None
         ∧ post_tasks Date_parse now Date_now req_body db
           = (res_status_json 201 (TaskSaved "Tarea creada exitosamente" (_id, task)),
              <[_id := task]> db))
  ∧ (∀ t, JS.new_Date Date_parse date = Ok (Some t) → now < t →
       title_accepted title = false →
       post_tasks Date_parse now Date_now req_body db
       = (res_status_json 500
            (Failure "Error al crear la tarea" (ErrorMessage ValidationError)), db))
  ∧ (JS.new_Date Date_parse date = Ok None →
       post_tasks Date_parse now Date_now req_body db
       = (res_status_json 500
            (Failure "Error al crear la tarea" (ErrorMessage ValidationError)), db)).
Proof.
  intros title date Ht Hd Hlog. rewrite post_tasks_unfold. fold title date.
  rewrite Hlog, Ht, Hd. split_and!.
  - intros t Hp Hlt. rewrite Hp. simpl.
    by apply Z.ltb_lt in Hlt as ->.
  - intros t s Hp Hlt Hs Hne. rewrite Hp. simpl.
    assert ((t <? now) = false) as -> by (apply Z.ltb_ge; lia).
    rewrite (new_Task_valid _ s) by done.
    match goal with
    | |- context [save (Ok ?task) db] =>
        destruct (save_fresh task db) as (i & Hi & ->)
    end.
    eauto.
  - intros t Hp Hlt Hs. rewrite Hp. simpl.
    assert ((t <? now) = false) as -> by (apply Z.ltb_ge; lia).
    by rewrite (new_Task_refused _ _ _ Ht Hs).
  - intros Hp. rewrite Hp. simpl.
    destruct (new_Task title None Date_now) as [t|e] eqn:Hn.
    + by apply new_Task_Ok in Hn as (_ & _ & ? & _).
    + by apply new_Task_Throw in Hn as ->.
Qed.

(** *** Update *)

(** C4, as amended.  An update request that sends a date (a truthy
    [date]) whose parsed value is before now is answered 400, and the
    collection is exactly what it was: the handler returns before any
    storage call. *)
Theorem put_tasks_id_past_date (now : Z) (id : string)
  (req_body : gmap string JS.value) (db : gmap ObjectId Task) (t : Z) :
  JS.truthy (JS.prop req_body "date") = true →
  JS.new_Date Date_parse (JS.prop req_body "date") = Ok (Some t) →
  t < now →
  put_tasks_id Date_parse castObjectId now id req_body db
  = (res_status_json 400 (Failure "Fecha inválida" (Text "La fecha debe ser futura")), db).
Proof.
  intros Hd Hp Hlt. unfold put_tasks_id, date_check. rewrite Hd, Hp. simpl.
  by apply Z.ltb_lt in Hlt as ->.
Qed.

(** When the date check lets the request through, the date to set is
    computed without error. *)
Lemma date_check_to_set (now : Z) (v : JS.value) :
  date_check Date_parse now v = Ok false →
  ∃ d', date_to_set Date_parse v = Ok d'
        ∧ (JS.truthy v = false → d' = None)
        ∧ (JS.truthy v = true → ∃ d, JS.new_Date Date_parse v = Ok d ∧ d' = Some d
                                     ∧ JS.Date_lt d (Some now) = false).
Proof.
  unfold date_check, date_to_set.
  destruct (JS.truthy v); [|intros _; exists None; by split_and!].
  destruct (JS.new_Date Date_parse v) as [d|e]; simpl; [|done].
  intros [= Hlt]. exists (Some d). split_and!; [done..|]. intros _. by exists d.
Qed.

(** What an update does once the identifier is well formed: thrown out
    or refused by the date check, thrown out by the cast or the
    validators, or run on the collection. *)
Lemma put_tasks_id_unfold (now : Z) (id : string)
  (req_body : gmap string JS.value) (db : gmap ObjectId Task) (i : ObjectId) :
  castObjectId id = Some i →
  put_tasks_id Date_parse castObjectId now id req_body db
  = match date_check Date_parse now (JS.prop req_body "date") with
    | Throw error =>
        (res_status_json 500
           (Failure "Error al actualizar la tarea" (ErrorMessage error)), db)
    | Ok true =>
        (res_status_json 400 (Failure "Fecha inválida" (Text "La fecha debe ser futura")), db)
    | Ok false =>
        match checked_update Date_parse (JS.prop req_body "title")
                (JS.prop req_body "date") (JS.prop req_body "completed") with
        | Throw error =>
            (res_status_json 500
               (Failure "Error al actualizar la tarea" (ErrorMessage error)), db)
        | Ok u =>
            match db !! i with
            | None => (not_found id, db)
            | Some t =>
                (res_json (TaskSaved "Tarea actualizada exitosamente" (i, applyUpdate u t)),
                 <[i := applyUpdate u t]> db)
            end
        end
    end.
Proof.
  intros Hi. unfold put_tasks_id, try_catch, checked_update, findByIdAndUpdate.
  destruct (date_check _ _ _) as [[|]|e]; simpl; [done| |done].
  destruct (date_to_set _ _) as [d'|e]; simpl; [|done].
  rewrite Hi.
  destruct (castUpdate _ _ _) as [u|e]; simpl; [|done].
  destruct (updateValidators u) as [[]|e]; simpl; [|done].
  by destruct (db !! i).
Qed.

(** With an identifier that does not cast, the date check still comes
    first, and then the cast of the identifier throws. *)
Lemma put_tasks_id_malformed (now : Z) (id : string)
  (req_body : gmap string JS.value) (db : gmap ObjectId Task) :
  castObjectId id = None →
  put_tasks_id Date_parse castObjectId now id req_body db
  = match date_check Date_parse now (JS.prop req_body "date") with
    | Throw error =>
        (res_status_json 500
           (Failure "Error al actualizar la tarea" (ErrorMessage error)), db)
    | Ok true =>
        (res_status_json 400 (Failure "Fecha inválida" (Text "La fecha debe ser futura")), db)
    | Ok false =>
        (res_status_json 500
           (Failure "Error al actualizar la tarea" (ErrorMessage CastError)), db)
    end.
Proof.
  intros Hi. unfold put_tasks_id, try_catch, findByIdAndUpdate.
  destruct (date_check _ _ _) as [[|]|e] eqn:Hc; simpl; [done| |done].
  destruct (date_check_to_set _ _ Hc) as (d' & -> & _). simpl. by rewrite Hi.
Qed.

Lemma castUpdate_Ok (v_title : JS.value) (d : option JS.Date) (v_completed : JS.value)
  (u : Update) :
  castUpdate v_title d v_completed = Ok u ↔
  title_path v_title = Ok (set_title u)
  ∧ date_path d = Ok (set_date u)
  ∧ completed_path v_completed = Ok (set_completed u).
Proof.
  unfold castUpdate.
  destruct (completed_path v_completed) as [c|e]; simpl;
    [|split; [done | by intros (_ & _ & ?)]].
  destruct (date_path d) as [x|e]; simpl;
    [|split; [done | by intros (_ & ? & _)]].
  destruct (title_path v_title) as [s|e]; simpl;
    [|split; [done | by intros (? & _ & _)]].
  destruct u as [s' x' c']; simpl. split.
  - by intros [= -> -> ->].
  - by intros ([= ->] & [= ->] & [= ->]).
Qed.

(** The update that is run, field by field. *)
Lemma checked_update_Ok (v_title v_date v_completed : JS.value) (u : Update) :
  checked_update Date_parse v_title v_date v_completed = Ok u ↔
  ∃ d', date_to_set Date_parse v_date = Ok d'
        ∧ title_path v_title = Ok (set_title u)
        ∧ date_path d' = Ok (set_date u)
        ∧ completed_path v_completed = Ok (set_completed u)
        ∧ updateValidators u = Ok ().
Proof.
  unfold checked_update.
  destruct (date_to_set _ _) as [d'|e]; simpl; [|split; [done | by intros (? & ? & _)]].
  split.
  - destruct (castUpdate _ _ _) as [u'|] eqn:Hu; simpl; [|done].
    destruct (updateValidators u') as [[]|] eqn:Hv; simpl; [|done].
    intros [= ->]. apply castUpdate_Ok in Hu as (? & ? & ?). by exists d'.
  - intros (d & [= <-] & Hs & Hd & Hc & Hv).
    assert (castUpdate v_title d' v_completed = Ok u) as -> by by apply castUpdate_Ok.
    simpl. by rewrite Hv.
Qed.

Lemma date_accepted_check (now : Z) (v : JS.value) :
  date_accepted Date_parse now v = true →
  date_check Date_parse now v = Ok false
  ∧ ∃ d' e, date_to_set Date_parse v = Ok d' ∧ date_path d' = Ok e
            ∧ (JS.truthy v = false → e = Absent)
            ∧ (∀ t, JS.truthy v = true → JS.new_Date Date_parse v = Ok (Some t)
                    → e = Value t)
            ∧ e ≠ IsNull.
Proof.
  unfold date_accepted, date_check, date_to_set.
  destruct (JS.truthy v);
    [|intros _; split; [done|]; exists None, Absent; by split_and!].
  destruct (JS.new_Date Date_parse v) as [[t|]|]; [|done..].
  intros Hle%Z.leb_le. simpl. split; [f_equal; by apply Z.ltb_ge|].
  exists (Some (Some t)), (Value t). split_and!; [done.. | by intros ? _ [= ->] | done].
Qed.

Lemma title_path_accepted (v : JS.value) :
  title_accepted v = true →
  ∃ e, title_path v = Ok e
       ∧ (v = JS.Undefined → e = Absent)
       ∧ match e with
         | Absent => v = JS.Undefined
         | IsNull => False
         | Value s => s ≠ ""
         end.
Proof.
  unfold title_accepted, title_path.
  destruct v; try done;
    try (intros _; exists Absent; by repeat split);
    (destruct (castString _) as [s0|]; [|done]; simpl; intros Hs;
     exists (Value (JS.trim s0)); repeat split; [done|];
     unfold required_string in Hs; by destruct (String.eqb_spec (JS.trim s0) "")).
Qed.

Lemma completed_path_accepted (v : JS.value) :
  completed_accepted v = true →
  ∃ e, completed_path v = Ok e ∧ (v = JS.Undefined ↔ e = Absent).
Proof.
  unfold completed_accepted, completed_path.
  destruct v; try done;
    try (intros _; exists Absent; by repeat split);
    try (intros _; exists IsNull; by repeat split);
    (destruct (castBoolean _) as [b0|]; [|done]; simpl; intros _;
     exists (Value b0); by repeat split).
Qed.

(** An update whose three fields are accepted is run on the
    collection: the date check, the cast and the validators let it
    through. *)
Lemma update_accepted (now : Z) (v_title v_date v_completed : JS.value) :
  date_accepted Date_parse now v_date = true →
  title_accepted v_title = true →
  completed_accepted v_completed = true →
  date_check Date_parse now v_date = Ok false
  ∧ ∃ u, checked_update Date_parse v_title v_date v_completed = Ok u
         ∧ title_path v_title = Ok (set_title u)
         ∧ completed_path v_completed = Ok (set_completed u)
         ∧ (JS.truthy v_date = false → set_date u = Absent).
Proof.
  intros (Hr & d' & d & Hd' & Hd & Hda & _ & Hdn)%date_accepted_check
         (s & Hs & _ & Hsv)%title_path_accepted
         (c & Hc & _)%completed_path_accepted.
  split; [done|].
  exists {| set_title := s; set_date := d; set_completed := c |}.
  split_and!; try done.
  apply checked_update_Ok. exists d'. split_and!; try done.
  unfold updateValidators. simpl.
  destruct s as [| |s]; destruct d; try done.
  all: unfold required_string; by destruct (String.eqb_spec s "").
Qed.

(** A title or a flag that is not accepted makes the storage call
    throw, whatever the date. *)
Lemma update_thrown (v_title v_date v_completed : JS.value) :
  title_accepted v_title && completed_accepted v_completed = false →
  ∃ e, checked_update Date_parse v_title v_date v_completed = Throw e.
Proof.
  intros H.
  destruct (checked_update _ _ _ _) as [u|e] eqn:Hu; [|by eauto].
  apply checked_update_Ok in Hu as (d' & _ & Hs & _ & Hc & Hv).
  assert (completed_accepted v_completed = true) as Hca.
  { unfold completed_accepted, completed_path in *.
    destruct v_completed; try done; by destruct (castBoolean _). }
  rewrite Hca, andb_true_r in H.
  apply updateValidators_Ok in Hv.
  unfold title_accepted, title_path in *.
  destruct v_title; try done;
    try (by injection Hs as Hs; rewrite <- Hs in Hv);
    (destruct (castString _) as [s0|]; [|done]; simpl in Hs;
     injection Hs as Hs; rewrite <- Hs in Hv;
     apply required_string_true in Hv; congruence).
Qed.

(** A date that is sent but is neither refused nor accepted is an
    Invalid Date: the cast of the update throws. *)
Lemma update_invalid_date (now : Z) (v_title v_date v_completed : JS.value) :
  date_check Date_parse now v_date = Ok false →
  date_accepted Date_parse now v_date = false →
  ∃ e, checked_update Date_parse v_title v_date v_completed = Throw e.
Proof.
  unfold date_check, date_accepted, checked_update, date_to_set, castUpdate.
  destruct (JS.truthy v_date); [|done].
  destruct (JS.new_Date Date_parse v_date) as [[t|]|]; simpl; [| |done].
  - intros [= ?%Z.ltb_ge] ?%Z.leb_gt. lia.
  - intros _ _. destruct (completed_path v_completed); simpl; eauto.
Qed.

(** The status of an update of a stored task: 400 when the date is
    refused, 200 when the three fields are accepted, 500 otherwise. *)
Lemma put_tasks_id_status (now : Z) (id : string)
  (req_body : gmap string JS.value) (db : gmap ObjectId Task)
  (i : ObjectId) (t : Task) :
  castObjectId id = Some i → db !! i = Some t →
  status (put_tasks_id Date_parse castObjectId now id req_body db).1
  = if date_refused Date_parse now (JS.prop req_body "date") then 400
    else if date_accepted Date_parse now (JS.prop req_body "date")
            && title_accepted (JS.prop req_body "title")
            && completed_accepted (JS.prop req_body "completed")
         then 200 else 500.
Proof.
  intros Hi Ht. rewrite (put_tasks_id_unfold _ _ _ _ i) by done. rewrite Ht.
  unfold date_refused.
  destruct (date_check _ _ _) as [[|]|e] eqn:Hr; [done| |].
  - destruct (date_accepted _ _ _) eqn:Hd; simpl.
    + destruct (title_accepted _ && completed_accepted _) eqn:Hacc.
      * apply andb_true_iff in Hacc as [Hs Hc].
        by destruct (update_accepted now _ _ _ Hd Hs Hc) as (_ & u & -> & _).
      * by destruct (update_thrown _ (JS.prop req_body "date") _ Hacc) as [e ->].
    + by destruct (update_invalid_date now (JS.prop req_body "title") _
                     (JS.prop req_body "completed") Hr Hd) as [e ->].
  - assert (date_accepted Date_parse now (JS.prop req_body "date") = false) as ->; [|done].
    unfold date_check, date_accepted in *.
    destruct (JS.truthy _); [|done]. by destruct (JS.new_Date _ _).
Qed.

(** C8.  An update of a stored task, whatever the body contains (a
    [createdAt] or an [_id] key included), leaves a task stored under
    the same identifier with the same [createdAt]; the set of
    identifiers and every other document are unchanged, and the
    document a successful answer carries has that identifier and that
    [createdAt].  Only [title], [date] and [completed] can differ. *)
Theorem put_tasks_id_keeps_id_createdAt (now : Z) (id : string)
  (req_body : gmap string JS.value) (db : gmap ObjectId Task)
  (i : ObjectId) (t : Task) :
  castObjectId id = Some i → db !! i = Some t →
  let r := put_tasks_id Date_parse castObjectId now id req_body db in
  (∃ t', r.2 !! i = Some t'
         ∧ createdAt t' = createdAt t
         ∧ t' = {| title := title t'; date := date t';
                   createdAt := createdAt t; completed := completed t' |})
  ∧ dom r.2 = dom db
  ∧ (∀ j, j ≠ i → r.2 !! j = db !! j)
  ∧ (∀ msg doc, body r.1 = TaskSaved msg doc →
       doc.1 = i ∧ createdAt doc.2 = createdAt t).
Proof.
  intros Hi Ht r. subst r. rewrite (put_tasks_id_unfold _ _ _ _ i) by done.
  rewrite Ht.
  assert (∃ t', db !! i = Some t' ∧ createdAt t' = createdAt t
                ∧ t' = {| title := title t'; date := date t';
                          createdAt := createdAt t; completed := completed t' |}) as Hsame.
  { exists t. by destruct t. }
  destruct (date_check _ _ _) as [[|]|e]; simpl; [by split_and!| |by split_and!].
  destruct (checked_update _ _ _ _) as [u|e]; simpl; [|by split_and!].
  split_and!.
  - exists (applyUpdate u t). by rewrite lookup_insert_eq.
  - by apply dom_insert_lookup_L.
  - intros j Hj. by rewrite lookup_insert_ne.
  - by intros msg doc [= _ <-].
Qed.

(** C2, as amended.  For an update request on a stored task: a field
    that is not supplied (no [title], no [completed], a [date] that is
    absent or falsy) keeps its stored value; when the request is
    answered 200 every supplied field is applied (the title as cast and
    trimmed by the schema, the parsed date of a truthy [date], the flag
    as cast, [null] for a [null] flag), and the answer carries the
    updated document; when it is not answered 200 the collection is
    unchanged.  In particular an update supplying only
    [completed: true] is answered 200, leaves title and date unchanged
    and sets [completed] to true. *)
Theorem put_tasks_id_partial_update (now : Z) (id : string)
  (req_body : gmap string JS.value) (db : gmap ObjectId Task)
  (i : ObjectId) (t : Task) :
  castObjectId id = Some i → db !! i = Some t →
  let v_title := JS.prop req_body "title" in
  let v_date := JS.prop req_body "date" in
  let v_completed := JS.prop req_body "completed" in
  let r := put_tasks_id Date_parse castObjectId now id req_body db in
  ∃ t', r.2 !! i = Some t'
    ∧ (v_title = JS.Undefined → title t' = title t)
    ∧ (JS.truthy v_date = false → date t' = date t)
    ∧ (v_completed = JS.Undefined → completed t' = completed t)
    ∧ (status r.1 = 200 →
         (∀ s, title_path v_title = Ok (Value s) → title t' = s)
         ∧ (∀ d, JS.truthy v_date = true →
              JS.new_Date Date_parse v_date = Ok (Some d) → date t' = d)
         ∧ (∀ b, completed_path v_completed = Ok (Value b) → completed t' = Some b)
         ∧ (v_completed = JS.Null → completed t' = None)
         ∧ r.1 = res_json (TaskSaved "Tarea actualizada exitosamente" (i, t')))
    ∧ (status r.1 ≠ 200 → r.2 = db)
    ∧ (v_title = JS.Undefined → v_date = JS.Undefined →
       v_completed = JS.Bool true →
         status r.1 = 200 ∧ title t' = title t ∧ date t' = date t
         ∧ completed t' = Some true).
Proof.
  intros Hi Ht v_title v_date v_completed r. subst r.
  rewrite (put_tasks_id_unfold _ _ _ _ i) by done.
  fold v_title v_date v_completed. rewrite Ht.
  destruct (date_check _ _ _) as [[|]|e] eqn:Hr; simpl.
  1,3: exists t; split_and!; try done;
       intros _ Hd _; unfold date_check in Hr; by rewrite Hd in Hr.
  destruct (checked_update _ _ _ _) as [u|e] eqn:Hu; simpl.
  2:{ exists t. split_and!; try done.
      intros H1 H2 H3. rewrite H1, H2, H3 in Hu. done. }
  apply checked_update_Ok in Hu as (d' & Hd' & Hs & Hd & Hc & _).
  exists (applyUpdate u t). rewrite lookup_insert_eq. simpl.
  unfold date_to_set in Hd'.
  split_and!.
  - done.
  - intros H. rewrite H in Hs. by injection Hs as <-.
  - intros H. rewrite H in Hd'. injection Hd' as <-. by injection Hd as <-.
  - intros H. rewrite H in Hc. by injection Hc as <-.
  - intros _. split_and!; [| | | |done].
    + intros s H. rewrite H in Hs. by injection Hs as <-.
    + intros d H1 H2. rewrite H1, H2 in Hd'. injection Hd' as <-.
      by injection Hd as <-.
    + intros b H. rewrite H in Hc. by injection Hc as <-.
    + intros H. rewrite H in Hc. by injection Hc as <-.
  - done.
  - intros H1 H2 H3.
    rewrite H1 in Hs. rewrite H2 in Hd'. rewrite H3 in Hc. simpl in *.
    injection Hd' as <-.
    injection Hs as <-. injection Hd as <-. injection Hc as <-. done.
Qed.

(** C9.  For an update request on a stored task whose body holds
    [completed: false], carried out (the date passes the check and the
    title passes the schema), the answer is 200 and the stored flag is
    [false]; the same request without the [completed] key leaves the
    flag as it was, so an explicit [false] is told apart from an
    omission. *)
Theorem put_tasks_id_completed_false (now : Z) (id : string)
  (req_body : gmap string JS.value) (db : gmap ObjectId Task)
  (i : ObjectId) (t : Task) :
  castObjectId id = Some i → db !! i = Some t →
  JS.prop req_body "completed" = JS.Bool false →
  date_accepted Date_parse now (JS.prop req_body "date") = true →
  title_accepted (JS.prop req_body "title") = true →
  let r := put_tasks_id Date_parse castObjectId now id req_body db in
  let r0 := put_tasks_id Date_parse castObjectId now id (delete "completed" req_body) db in
  (∃ t', r = (res_json (TaskSaved "Tarea actualizada exitosamente" (i, t')),
              <[i := t']> db)
         ∧ completed t' = Some false)
  ∧ (∃ t0, r0 = (res_json (TaskSaved "Tarea actualizada exitosamente" (i, t0)),
                <[i := t0]> db)
           ∧ completed t0 = completed t).
Proof.
  intros Hi Ht Hc Hd Hs r r0. subst r r0.
  rewrite !(put_tasks_id_unfold _ _ _ _ i) by done. rewrite Ht.
  assert (JS.prop (delete "completed" req_body) "completed" = JS.Undefined) as Hc0.
  { apply prop_missing, lookup_delete_eq. }
  assert (JS.prop (delete "completed" req_body) "date" = JS.prop req_body "date") as ->.
  { unfold JS.prop. by rewrite lookup_delete_ne. }
  assert (JS.prop (delete "completed" req_body) "title" = JS.prop req_body "title") as ->.
  { unfold JS.prop. by rewrite lookup_delete_ne. }
  rewrite Hc, Hc0. split.
  - destruct (update_accepted now (JS.prop req_body "title") (JS.prop req_body "date")
                (JS.Bool false)) as (-> & u & -> & _ & Hu & _); [done..|].
    exists (applyUpdate u t). split; [done|]. simpl.
    simpl in Hu. by injection Hu as <-.
  - destruct (update_accepted now (JS.prop req_body "title") (JS.prop req_body "date")
                JS.Undefined) as (-> & u & -> & _ & Hu & _); [done..|].
    exists (applyUpdate u t). split; [done|]. simpl.
    simpl in Hu. by injection Hu as <-.
Qed.

(** C10.  For an update request on a stored task whose body gives a
    falsy [date] (the empty string, 0, [false], [null]): the date
    check is skipped, no date is put in the update and the answer is
    never 400; the stored date is unchanged; the answer is 200 when
    the rest of the request is valid (the title and the flag, if
    supplied, are accepted by the schema), and 500 with the collection
    unchanged otherwise. *)
Theorem put_tasks_id_falsy_date (now : Z) (id : string)
  (req_body : gmap string JS.value) (db : gmap ObjectId Task)
  (i : ObjectId) (t : Task) :
  castObjectId id = Some i → db !! i = Some t →
  JS.truthy (JS.prop req_body "date") = false →
  let r := put_tasks_id Date_parse castObjectId now id req_body db in
  date_refused Date_parse now (JS.prop req_body "date") = false
  ∧ date_to_set Date_parse (JS.prop req_body "date") = Ok None
  ∧ status r.1 ≠ 400
  ∧ (∃ t', r.2 !! i = Some t' ∧ date t' = date t)
  ∧ (if title_accepted (JS.prop req_body "title")
        && completed_accepted (JS.prop req_body "completed")
     then status r.1 = 200
     else status r.1 = 500 ∧ r.2 = db).
Proof.
  intros Hi Ht Hd r. subst r.
  rewrite (put_tasks_id_unfold _ _ _ _ i) by done. rewrite Ht.
  assert (date_check Date_parse now (JS.prop req_body "date") = Ok false) as Hr
    by (unfold date_check; by rewrite Hd).
  assert (date_to_set Date_parse (JS.prop req_body "date") = Ok None) as Hn
    by (unfold date_to_set; by rewrite Hd).
  unfold date_refused. rewrite Hr. split; [done|]. split; [done|].
  destruct (title_accepted _ && completed_accepted _) eqn:Hacc.
  - apply andb_true_iff in Hacc as [Hs Hc].
    destruct (update_accepted now (JS.prop req_body "title") (JS.prop req_body "date")
                (JS.prop req_body "completed")) as (_ & u & Hu & _ & _ & Hud).
    { unfold date_accepted. by rewrite Hd. }
    { done. }
    { done. }
    rewrite Hu. simpl. split_and!; try done.
    exists (applyUpdate u t). rewrite lookup_insert_eq. split; [done|].
    simpl. by rewrite (Hud Hd).
  - destruct (update_thrown _ (JS.prop req_body "date") _ Hacc) as [e ->]. simpl.
    split_and!; try done. by exists t.
Qed.

(** *** Requests on an identifier that matches nothing *)


(** *** Delete *)

(** C7.  A delete request on a stored task removes it (and nothing
    else), answers 200 with [data] being the identifier and the title
    of the removed task, and a get-by-id on that identifier afterwards
    answers 404. *)
Theorem delete_tasks_id_removes (id : string) (db : gmap ObjectId Task)
  (i : ObjectId) (t : Task) :
  castObjectId id = Some i → db !! i = Some t →
  let r := delete_tasks_id castObjectId id db in
  r.1 = res_json (TaskRemoved "Tarea eliminada correctamente" i (title t))
  ∧ status r.1 = 200
  ∧ r.2 = delete i db
  ∧ r.2 !! i = None
  ∧ (∀ j, j ≠ i → r.2 !! j = db !! j)
  ∧ get_tasks_id castObjectId id r.2 = (not_found id, r.2)
  ∧ status (get_tasks_id castObjectId id r.2).1 = 404.
Proof.
  intros Hi Ht r. subst r.
  unfold delete_tasks_id, findByIdAndDelete. rewrite Hi, Ht. simpl.
  assert (get_tasks_id castObjectId id (delete i db) = (not_found id, delete i db)) as Hg.
  { unfold get_tasks_id, findById. by rewrite Hi, lookup_delete_eq. }
  split_and!; try done.
  - apply lookup_delete_eq.
  - intros j Hj. by apply lookup_delete_ne.
  - by rewrite Hg.
Qed.

End RouteProperties.
(** ** Further properties of the routes *)

Section MoreRouteProperties.

Context (Date_parse : string → JS.Date) (castObjectId : string → option ObjectId).

(** *** Create *)

(** The status of a create request: 500 when the title cannot be
    printed into the log line; otherwise 400 when a field is missing or
    falsy or the date is before now, 201 when the date is a valid
    instant and the title passes the schema, 500 in every other case
    (a date that cannot be converted or does not parse, a title the
    schema refuses). *)
Theorem post_tasks_status (now Date_now : Z)
  (req_body : gmap string JS.value) (db : gmap ObjectId Task) :
  let v_title := JS.prop req_body "title" in
  let v_date := JS.prop req_body "date" in
  status (post_tasks Date_parse now Date_now req_body db).1
  = match JS.to_string v_title with
    | Throw _ => 500
    | Ok _ =>
        if negb (JS.truthy v_title) || negb (JS.truthy v_date) then 400
        else if date_refused Date_parse now v_date then 400
        else if date_accepted Date_parse now v_date && title_accepted v_title
             then 201 else 500
    end.
Proof.
  intros v_title v_date. rewrite post_tasks_unfold. fold v_title v_date.
  destruct (JS.to_string v_title) as [logged|e]; [|done].
  destruct (JS.truthy v_title) eqn:Ht, (JS.truthy v_date) eqn:Hd; try done.
  simpl. unfold date_refused, date_check, date_accepted. rewrite Hd.
  destruct (JS.new_Date Date_parse v_date) as [d|e]; simpl; [|done].
  destruct (JS.Date_lt _ _) eqn:Hlt; [done|].
  unfold new_Task, save.
  destruct d as [d|]; simpl.
  2:{ by destruct (title_path v_title) as [[| |?]|]. }
  apply Z.ltb_ge in Hlt. apply Z.leb_le in Hlt as ->. simpl.
  unfold title_accepted, title_path.
  destruct v_title; try done;
    (destruct (castString _) as [s'|]; [|done]; simpl;
     by destruct (required_string (JS.trim s'))).
Qed.

(** A 201 is an insertion of the validated document under a fresh
    identifier. *)
Lemma post_tasks_201 (now Date_now : Z)
  (req_body : gmap string JS.value) (db : gmap ObjectId Task) :
  let r := post_tasks Date_parse now Date_now req_body db in
  status r.1 = 201 →
  ∃ (_id : ObjectId) (t : Task),
    r = (res_status_json 201 (TaskSaved "Tarea creada exitosamente" (_id, t)),
         <[_id := t]> db)
    ∧ db !! _id = None
    ∧ ∃ taskDate,
        JS.new_Date Date_parse (JS.prop req_body "date") = Ok taskDate
        ∧ JS.Date_lt taskDate (Some now) = false
        ∧ new_Task (JS.prop req_body "title") taskDate Date_now = Ok t.
Proof.
  intros r. subst r. rewrite post_tasks_unfold.
  destruct (JS.to_string _); [|done].
  destruct (negb _ || negb _); [done|].
  destruct (JS.new_Date _ _) as [taskDate|]; [|done].
  destruct (JS.Date_lt _ _) eqn:Hlt; [done|].
  destruct (new_Task _ _ _) as [t|e] eqn:Hn; [|done].
  destruct (save_fresh t db) as (i & Hi & ->). simpl. intros _.
  exists i, t. split_and!; try done. by exists taskDate.
Qed.

Lemma new_Task_title_ok (v : JS.value) (d : JS.Date) (Date_now : Z) (t : Task) :
  new_Task v d Date_now = Ok t → title_ok t.
Proof.
  intros (Hp & Hne & _)%new_Task_Ok. split; [done|]. by eapply title_path_trimmed.
Qed.

(** What a 201 means: the task was stored under an identifier that was
    free, every other document is as before, and the new task has a
    non-empty trimmed title, a date that is not before now, the
    creation time and [completed = false]. *)
Theorem post_tasks_created (now Date_now : Z)
  (req_body : gmap string JS.value) (db : gmap ObjectId Task) :
  let r := post_tasks Date_parse now Date_now req_body db in
  status r.1 = 201 →
  ∃ (_id : ObjectId) (t : Task),
    r = (res_status_json 201 (TaskSaved "Tarea creada exitosamente" (_id, t)),
         <[_id := t]> db)
    ∧ db !! _id = None
    ∧ title_ok t ∧ now ≤ date t ∧ createdAt t = Date_now
    ∧ completed t = Some false
    ∧ size r.2 = S (size db)
    ∧ ∀ j t0, db !! j = Some t0 → r.2 !! j = Some t0.
Proof.
  intros r H201. subst r.
  destruct (post_tasks_201 now Date_now req_body db H201)
    as (i & t & -> & Hi & taskDate & _ & Hlt & Hn).
  pose proof (new_Task_title_ok _ _ _ _ Hn) as Hok.
  apply new_Task_Ok in Hn as (_ & _ & Hd & Hc & Hf).
  exists i, t. simpl. split_and!; try done.
  - rewrite Hd in Hlt. simpl in Hlt. by apply Z.ltb_ge.
  - by apply map_size_insert_None.
  - intros j t0 Hj. rewrite lookup_insert_ne; [done|]. by intros ->; simplify_eq.
Qed.

(** Create then read: the document a 201 returns is what get-by-id
    returns for its identifier. *)
Theorem post_tasks_then_get (now Date_now : Z)
  (req_body : gmap string JS.value) (db db' : gmap ObjectId Task)
  (msg id : string) (doc : Document) :
  post_tasks Date_parse now Date_now req_body db
  = (res_status_json 201 (TaskSaved msg doc), db') →
  castObjectId id = Some doc.1 →
  get_tasks_id castObjectId id db' = (res_json (TaskData doc), db').
Proof.
  intros Hp Hi.
  destruct (post_tasks_201 now Date_now req_body db) as (i & t & Hr & _).
  { by rewrite Hp. }
  rewrite Hp in Hr. injection Hr as _ -> ->.
  unfold get_tasks_id, findById. rewrite Hi. simpl. by rewrite lookup_insert_eq.
Qed.

(** Create then list: the list has one more document, the new one and
    all the earlier ones. *)
Theorem post_tasks_then_list (now Date_now : Z)
  (req_body : gmap string JS.value) (db db' : gmap ObjectId Task)
  (msg : string) (doc : Document) :
  post_tasks Date_parse now Date_now req_body db
  = (res_status_json 201 (TaskSaved msg doc), db') →
  ∃ data, get_tasks db' = (res_json (TaskList (S (size db)) data), db')
          ∧ doc ∈ data
          ∧ ∀ j t, db !! j = Some t → (j, t) ∈ data.
Proof.
  intros Hp.
  destruct (post_tasks_201 now Date_now req_body db) as (i & t & Hr & Hi & _).
  { by rewrite Hp. }
  rewrite Hp in Hr. injection Hr as _ -> ->.
  exists (find_sort (<[i := t]> db)). split_and!.
  - unfold get_tasks. rewrite find_sort_length.
    by rewrite map_size_insert_None.
  - apply find_sort_elem, lookup_insert_eq.
  - intros j t0 Hj. apply find_sort_elem. rewrite lookup_insert_ne; [done|].
    by intros ->; simplify_eq.
Qed.

(** Create then delete: deleting the document a 201 returned gives
    back the collection as it was before the create. *)
Theorem post_tasks_then_delete (now Date_now : Z)
  (req_body : gmap string JS.value) (db db' : gmap ObjectId Task)
  (msg id : string) (doc : Document) :
  post_tasks Date_parse now Date_now req_body db
  = (res_status_json 201 (TaskSaved msg doc), db') →
  castObjectId id = Some doc.1 →
  delete_tasks_id castObjectId id db'
  = (res_json (TaskRemoved "Tarea eliminada correctamente" doc.1 (title doc.2)), db).
Proof.
  intros Hp Hi.
  destruct (post_tasks_201 now Date_now req_body db) as (i & t & Hr & Hn & _).
  { by rewrite Hp. }
  rewrite Hp in Hr. injection Hr as _ -> ->. simpl in *.
  unfold delete_tasks_id, findByIdAndDelete. rewrite Hi, lookup_insert_eq. simpl.
  by rewrite delete_insert_id.
Qed.

(** A date that was sent and is converted to an Invalid Date (a text
    that does not parse) is not a validation error of the handlers: it
    passes the date check and the storage call throws, so create (with
    a title that can be printed) and update answer 500 with the error
    of Mongoose, nothing changed. *)
Theorem unparsable_date_500 (now : Z) (req_body : gmap string JS.value)
  (db : gmap ObjectId Task) :
  JS.truthy (JS.prop req_body "date") = true →
  JS.new_Date Date_parse (JS.prop req_body "date") = Ok None →
  (∀ Date_now logged,
     JS.truthy (JS.prop req_body "title") = true →
     JS.to_string (JS.prop req_body "title") = Ok logged →
     post_tasks Date_parse now Date_now req_body db
     = (res_status_json 500
          (Failure "Error al crear la tarea" (ErrorMessage ValidationError)), db))
  ∧ (∀ id,
       put_tasks_id Date_parse castObjectId now id req_body db
       = (res_status_json 500
            (Failure "Error al actualizar la tarea" (ErrorMessage CastError)), db)).
Proof.
  intros Hd Hn. split.
  - intros Date_now logged Ht Hlog. rewrite post_tasks_unfold.
    rewrite Hlog, Ht, Hd, Hn. simpl.
    unfold new_Task. simpl. destruct (title_path _) as [[| |?]|]; reflexivity.
  - intros id.
    assert (date_check Date_parse now (JS.prop req_body "date") = Ok false) as Hc.
    { unfold date_check. by rewrite Hd, Hn. }
    destruct (castObjectId id) as [i|] eqn:Hi.
    + rewrite (put_tasks_id_unfold _ _ _ _ _ _ i) by done. rewrite Hc.
      unfold checked_update, date_to_set, castUpdate. rewrite Hd, Hn. simpl.
      destruct (completed_path _) as [c|e] eqn:Hcp; [reflexivity|].
      by apply completed_path_Throw in Hcp as ->.
    + rewrite put_tasks_id_malformed by done. by rewrite Hc.
Qed.

(** A title or a date that has no primitive (an object with a
    [toString] key of its own, or an array holding one) is not a
    validation error either: the handler itself throws a [TypeError]
    when it prints the title or converts the date, and answers 500 with
    that error's message, nothing changed. *)
Theorem conversion_error_500 (now : Z) (req_body : gmap string JS.value)
  (db : gmap ObjectId Task) (e : Error) :
  (JS.to_string (JS.prop req_body "title") = Throw e →
     ∀ Date_now,
       post_tasks Date_parse now Date_now req_body db
       = (res_status_json 500 (Failure "Error al crear la tarea" (ErrorMessage e)), db))
  ∧ (JS.new_Date Date_parse (JS.prop req_body "date") = Throw e →
       JS.truthy (JS.prop req_body "date") = true
       ∧ (∀ Date_now logged,
            JS.truthy (JS.prop req_body "title") = true →
            JS.to_string (JS.prop req_body "title") = Ok logged →
            post_tasks Date_parse now Date_now req_body db
            = (res_status_json 500
                 (Failure "Error al crear la tarea" (ErrorMessage e)), db))
       ∧ (∀ id,
            put_tasks_id Date_parse castObjectId now id req_body db
            = (res_status_json 500
                 (Failure "Error al actualizar la tarea" (ErrorMessage e)), db))).
Proof.
  split.
  - intros Hlog Date_now. rewrite post_tasks_unfold. by rewrite Hlog.
  - intros Hn.
    assert (JS.truthy (JS.prop req_body "date") = true) as Hd.
    { by destruct (JS.prop req_body "date"). }
    split_and!; [done| |].
    + intros Date_now logged Ht Hlog. rewrite post_tasks_unfold.
      by rewrite Hlog, Ht, Hd, Hn.
    + intros id. unfold put_tasks_id, date_check. by rewrite Hd, Hn.
Qed.

(** *** Update *)

(** What an update can do to the collection: nothing, or replace the
    addressed task by the task with the validated update applied. *)
Lemma put_tasks_id_effect (now : Z) (id : string)
  (req_body : gmap string JS.value) (db : gmap ObjectId Task) :
  let r := put_tasks_id Date_parse castObjectId now id req_body db in
  (r.2 = db ∧ status r.1 ≠ 200)
  ∨ ∃ i t u,
      castObjectId id = Some i ∧ db !! i = Some t
      ∧ date_check Date_parse now (JS.prop req_body "date") = Ok false
      ∧ checked_update Date_parse (JS.prop req_body "title")
          (JS.prop req_body "date") (JS.prop req_body "completed") = Ok u
      ∧ r = (res_json (TaskSaved "Tarea actualizada exitosamente" (i, applyUpdate u t)),
             <[i := applyUpdate u t]> db).
Proof.
  destruct (castObjectId id) as [i|] eqn:Hi.
  2:{ left. rewrite put_tasks_id_malformed by done.
      by destruct (date_check _ _ _) as [[|]|]. }
  rewrite (put_tasks_id_unfold _ _ _ _ _ _ i) by done.
  destruct (date_check _ _ _) as [[|]|]; [by left| |by left].
  destruct (checked_update _ _ _ _) as [u|e]; [|by left].
  destruct (db !! i) as [t|] eqn:Ht; [|by left].
  right. by exists i, t, u.
Qed.

(** What a 200 means for an update: the addressed task was stored and
    is replaced by the task returned; a title that was sent is stored
    non-empty and trimmed, a date that was sent is stored and is not
    before now, and the creation time is kept. *)
Theorem put_tasks_id_updated (now : Z) (id : string)
  (req_body : gmap string JS.value) (db : gmap ObjectId Task) :
  let r := put_tasks_id Date_parse castObjectId now id req_body db in
  status r.1 = 200 →
  ∃ i t t',
    castObjectId id = Some i ∧ db !! i = Some t
    ∧ r = (res_json (TaskSaved "Tarea actualizada exitosamente" (i, t')),
           <[i := t']> db)
    ∧ (JS.prop req_body "title" ≠ JS.Undefined → title_ok t')
    ∧ (JS.truthy (JS.prop req_body "date") = true →
         JS.new_Date Date_parse (JS.prop req_body "date") = Ok (Some (date t'))
         ∧ now ≤ date t')
    ∧ createdAt t' = createdAt t.
Proof.
  intros r H200. subst r.
  destruct (put_tasks_id_effect now id req_body db)
    as [[_ ?]|(i & t & u & Hi & Ht & Hr & Hu & Hp)]; [done|].
  apply checked_update_Ok in Hu as (d' & Hd' & Hs & Hd & _ & Hv).
  exists i, t, (applyUpdate u t). split_and!; try done.
  - intros Hne. apply updateValidators_Ok in Hv. unfold title_ok. simpl.
    destruct (set_title u) as [| |s] eqn:Hu; simpl.
    + unfold title_path in Hs. destruct (JS.prop req_body "title"); try done;
        by destruct (castString _).
    + done.
    + split; [done|]. by eapply title_path_trimmed.
  - intros Htr. unfold date_check, date_to_set in *. rewrite Htr in *.
    destruct (JS.new_Date Date_parse _) as [d|]; [|done]. simpl in *.
    injection Hd' as <-. destruct d as [x|]; [|done]. simpl in *.
    injection Hd as <-. injection Hr as Hr. simpl. split; [done|]. by apply Z.ltb_ge.
Qed.

(** The status of an update request, whatever the identifier. *)
Theorem put_tasks_id_status_table (now : Z) (id : string)
  (req_body : gmap string JS.value) (db : gmap ObjectId Task) :
  status (put_tasks_id Date_parse castObjectId now id req_body db).1
  = if date_refused Date_parse now (JS.prop req_body "date") then 400
    else match castObjectId id with
         | None => 500
         | Some i =>
             if date_accepted Date_parse now (JS.prop req_body "date")
                && title_accepted (JS.prop req_body "title")
                && completed_accepted (JS.prop req_body "completed")
             then match db !! i with
                  | Some _ => 200
                  | None => 404
                  end
             else 500
         end.
Proof.
  destruct (castObjectId id) as [i|] eqn:Hi.
  2:{ rewrite put_tasks_id_malformed by done. unfold date_refused.
      by destruct (date_check _ _ _) as [[|]|]. }
  rewrite (put_tasks_id_unfold _ _ _ _ _ _ i) by done.
  unfold date_refused.
  destruct (date_check _ _ _) as [[|]|e] eqn:Hr; [done| |].
  - destruct (date_accepted _ _ _) eqn:Hd; simpl.
    + destruct (title_accepted _ && completed_accepted _) eqn:Hacc.
      * apply andb_true_iff in Hacc as [Hs Hc].
        destruct (update_accepted Date_parse now _ _ _ Hd Hs Hc) as (_ & u & -> & _).
        by destruct (db !! i).
      * by destruct (update_thrown Date_parse _ (JS.prop req_body "date") _ Hacc)
          as [e ->].
    + by destruct (update_invalid_date Date_parse now (JS.prop req_body "title") _
                     (JS.prop req_body "completed") Hr Hd) as [e ->].
  - assert (date_accepted Date_parse now (JS.prop req_body "date") = false) as ->; [|done].
    unfold date_check, date_accepted in *.
    destruct (JS.truthy _); [|done]. by destruct (JS.new_Date _ _).
Qed.

(** Sending the same update a second time changes nothing more and is
    answered like the first time. *)
Theorem put_tasks_id_idempotent (now : Z) (id : string)
  (req_body : gmap string JS.value) (db : gmap ObjectId Task) :
  let r := put_tasks_id Date_parse castObjectId now id req_body db in
  put_tasks_id Date_parse castObjectId now id req_body r.2 = r.
Proof.
  intros r. subst r.
  destruct (castObjectId id) as [i|] eqn:Hi.
  2:{ rewrite !put_tasks_id_malformed by done.
      by destruct (date_check _ _ _) as [[|]|]. }
  rewrite !(put_tasks_id_unfold _ _ _ _ _ _ i) by done.
  destruct (date_check _ _ _) as [[|]|]; simpl; [done| |done].
  destruct (checked_update _ _ _ _) as [u|e]; simpl; [|done].
  destruct (db !! i) as [t|] eqn:Ht; simpl.
  - by rewrite lookup_insert_eq, applyUpdate_idemp, insert_insert_eq.
  - by rewrite Ht.
Qed.

(** Update then read: the document a successful update returns is
    what get-by-id returns afterwards. *)
Theorem put_tasks_id_then_get (now : Z) (id : string)
  (req_body : gmap string JS.value) (db : gmap ObjectId Task) :
  let r := put_tasks_id Date_parse castObjectId now id req_body db in
  status r.1 = 200 →
  ∃ doc, r.1 = res_json (TaskSaved "Tarea actualizada exitosamente" doc)
         ∧ get_tasks_id castObjectId id r.2 = (res_json (TaskData doc), r.2).
Proof.
  intros r H200. subst r.
  destruct (put_tasks_id_effect now id req_body db)
    as [[_ ?]|(i & t & u & Hi & Ht & _ & _ & Hr)]; [done|].
  rewrite Hr. exists (i, applyUpdate u t). split; [done|]. simpl.
  unfold get_tasks_id, findById. rewrite Hi. by rewrite lookup_insert_eq.
Qed.

(** An update whose body has none of [title], [date], [completed]
    (an empty body, or only other keys) is answered 200 with the task
    as it is stored, and changes nothing. *)
Theorem put_tasks_id_no_fields (now : Z) (id : string)
  (req_body : gmap string JS.value) (db : gmap ObjectId Task)
  (i : ObjectId) (t : Task) :
  castObjectId id = Some i → db !! i = Some t →
  req_body !! "title" = None → req_body !! "date" = None →
  req_body !! "completed" = None →
  put_tasks_id Date_parse castObjectId now id req_body db
  = (res_json (TaskSaved "Tarea actualizada exitosamente" (i, t)), db).
Proof.
  intros Hi Ht H1 H2 H3.
  rewrite (put_tasks_id_unfold _ _ _ _ _ _ i) by done.
  rewrite !prop_missing by done. simpl. rewrite Ht.
  by rewrite applyUpdate_absent, insert_id.
Qed.

(** An update never adds or removes a document, and update and delete
    leave every document other than the addressed one as it is. *)
Theorem put_delete_other_documents (now : Z) (id : string)
  (req_body : gmap string JS.value) (db : gmap ObjectId Task) :
  dom (put_tasks_id Date_parse castObjectId now id req_body db).2 = dom db
  ∧ ∀ j, castObjectId id ≠ Some j →
      (put_tasks_id Date_parse castObjectId now id req_body db).2 !! j = db !! j
      ∧ (delete_tasks_id castObjectId id db).2 !! j = db !! j.
Proof.
  split.
  - destruct (put_tasks_id_effect now id req_body db)
      as [[-> _]|(i & t & u & Hi & Ht & _ & _ & ->)]; [done|].
    simpl. by apply dom_insert_lookup_L.
  - intros j Hj. split.
    + destruct (put_tasks_id_effect now id req_body db)
        as [[-> _]|(i & t & u & Hi & Ht & _ & _ & ->)]; [done|].
      simpl. apply lookup_insert_ne. congruence.
    + unfold delete_tasks_id, findByIdAndDelete.
      destruct (castObjectId id) as [i|]; [|done].
      destruct (db !! i) eqn:Ht; [|done]. simpl.
      apply lookup_delete_ne. congruence.
Qed.

(** *** Delete *)

(** Deleting twice: the second request removes nothing and is never
    answered 200; with a well-formed identifier it is answered 404. *)
Theorem delete_tasks_id_twice (id : string) (db : gmap ObjectId Task) :
  let db' := (delete_tasks_id castObjectId id db).2 in
  (delete_tasks_id castObjectId id db').2 = db'
  ∧ status (delete_tasks_id castObjectId id db').1 ≠ 200
  ∧ (∀ i, castObjectId id = Some i →
       delete_tasks_id castObjectId id db' = (not_found id, db')).
Proof.
  unfold delete_tasks_id, findByIdAndDelete.
  destruct (castObjectId id) as [i|]; [|done].
  destruct (db !! i) as [t|] eqn:Ht; simpl.
  - rewrite lookup_delete_eq. by split_and!.
  - rewrite Ht. by split_and!.
Qed.

(** Delete then list: after a successful delete the list has one
    document less, the removed one is gone and the others are there. *)
Theorem delete_tasks_id_then_list (id : string) (db : gmap ObjectId Task) :
  let r := delete_tasks_id castObjectId id db in
  status r.1 = 200 →
  ∃ i t data,
    castObjectId id = Some i ∧ db !! i = Some t
    ∧ get_tasks r.2 = (res_json (TaskList (size db - 1) data), r.2)
    ∧ (∀ t', (i, t') ∉ data)
    ∧ ∀ j t', j ≠ i → db !! j = Some t' → (j, t') ∈ data.
Proof.
  intros r. subst r. unfold delete_tasks_id, findByIdAndDelete.
  destruct (castObjectId id) as [i|]; [|done].
  destruct (db !! i) as [t|] eqn:Ht; [|done]. simpl. intros _.
  exists i, t, (find_sort (delete i db)). split_and!; try done.
  - unfold get_tasks. rewrite find_sort_length.
    rewrite map_size_delete, Ht. simpl. by rewrite Nat.sub_1_r.
  - intros t'. rewrite find_sort_elem, lookup_delete_eq. done.
  - intros j t' Hj Hl. rewrite find_sort_elem. by rewrite lookup_delete_ne.
Qed.

(** *** Identifiers that are not well formed *)

(** A path parameter that does not cast to an ObjectId is a storage
    error, not a 404: get-by-id and delete answer 500 with the cast
    error; an update runs its date check first (500 with the error of
    the conversion if the date has no primitive, 400 if the date is
    before now) and answers 500 with the cast error otherwise.  Nothing
    changes. *)
Theorem malformed_id_500 (id : string) (db : gmap ObjectId Task) :
  castObjectId id = None →
  get_tasks_id castObjectId id db
  = (res_status_json 500 (Failure "Error al obtener la tarea" (ErrorMessage CastError)), db)
  ∧ delete_tasks_id castObjectId id db
    = (res_status_json 500 (Failure "Error al eliminar la tarea" (ErrorMessage CastError)), db)
  ∧ ∀ now req_body,
      put_tasks_id Date_parse castObjectId now id req_body db
      = match date_check Date_parse now (JS.prop req_body "date") with
        | Throw error =>
            (res_status_json 500
               (Failure "Error al actualizar la tarea" (ErrorMessage error)), db)
        | Ok true =>
            (res_status_json 400
               (Failure "Fecha inválida" (Text "La fecha debe ser futura")), db)
        | Ok false =>
            (res_status_json 500
               (Failure "Error al actualizar la tarea" (ErrorMessage CastError)), db)
        end.
Proof.
  intros Hi. split_and!.
  - unfold get_tasks_id, findById. by rewrite Hi.
  - unfold delete_tasks_id, findByIdAndDelete. by rewrite Hi.
  - intros now req_body. by apply put_tasks_id_malformed.
Qed.

(** *** List and get-by-id agree *)

(** A document is in the data of the list exactly when get-by-id
    returns it for its identifier. *)
Theorem get_tasks_get_tasks_id (id : string) (db : gmap ObjectId Task)
  (i : ObjectId) (t : Task) (n : nat) (data : list Document) :
  castObjectId id = Some i →
  (get_tasks db).1 = res_json (TaskList n data) →
  (i, t) ∈ data ↔ get_tasks_id castObjectId id db = (res_json (TaskData (i, t)), db).
Proof.
  intros Hi [= _ <-]. rewrite find_sort_elem.
  unfold get_tasks_id, findById. rewrite Hi.
  destruct (db !! i) as [t0|]; simpl.
  - split; [by intros [= ->] | by intros [= ->]].
  - split; [done | by intros [= ?]].
Qed.

(** *** The application, request after request *)

(** A request changes the collection only if it is a create, an update
    or a delete that is answered with success: a [success: false]
    answer, a read, the root route and an unmatched URL leave it as it
    was. *)
Theorem handle_changes_only_on_success (req : request) (db : gmap ObjectId Task) :
  let r := handle Date_parse castObjectId req db in
  (reply_failed r.1 = true → r.2 = db)
  ∧ (match req with
     | POST_tasks _ _ _ | PUT_tasks_id _ _ _ | DELETE_tasks_id _ => False
     | _ => True
     end → r.2 = db).
Proof.
  destruct req as [|id|now Date_now req_body|now id req_body|id| |url]; simpl.
  - done.
  - unfold get_tasks_id. by destruct (findById _ _ _) as [[?|]|].
  - split; [|done]. rewrite post_tasks_unfold.
    destruct (JS.to_string _); [|done].
    destruct (negb _ || negb _); [done|].
    destruct (JS.new_Date _ _); [|done].
    destruct (JS.Date_lt _ _); [done|].
    by destruct (save _ _) as [[? ?]|].
  - split; [|done].
    destruct (put_tasks_id_effect now id req_body db)
      as [[Hdb _]|(i & t & u & _ & _ & _ & _ & Hr)].
    + destruct (put_tasks_id _ _ _ _ _ _). by simpl in *.
    + by rewrite Hr.
  - split; [|done]. unfold delete_tasks_id.
    destruct (findByIdAndDelete _ _ _) as [[[?|] ?]|] eqn:Hf; simpl; try done.
    intros _. unfold findByIdAndDelete in Hf.
    destruct (castObjectId id) as [i|]; [|done].
    destruct (db !! i); by simplify_eq.
  - done.
  - done.
Qed.

(** The status codes of each route, and the envelope that goes with
    them: [success] is false exactly on a status of 400 and above. *)
Theorem handle_status (req : request) (db : gmap ObjectId Task) :
  let r := (handle Date_parse castObjectId req db).1 in
  let s := reply_status r in
  match req with
  | GET_tasks | GET_root => s = 200
  | GET_tasks_id _ | DELETE_tasks_id _ => s = 200 ∨ s = 404 ∨ s = 500
  | POST_tasks _ _ _ => s = 201 ∨ s = 400 ∨ s = 500
  | PUT_tasks_id _ _ _ => s = 200 ∨ s = 400 ∨ s = 404 ∨ s = 500
  | Unmatched _ => s = 404
  end
  ∧ (reply_failed r = true ↔ 400 ≤ s).
Proof.
  destruct req as [|id|now Date_now req_body|now id req_body|id| |url]; simpl.
  - done.
  - unfold get_tasks_id. destruct (findById _ _ _) as [[?|]|]; simpl;
      (split; [tauto | done]).
  - rewrite post_tasks_unfold.
    destruct (JS.to_string _); simpl; [|split; [tauto | done]].
    destruct (negb _ || negb _); simpl; [split; [tauto | done]|].
    destruct (JS.new_Date _ _); simpl; [|split; [tauto | done]].
    destruct (JS.Date_lt _ _); simpl; [split; [tauto | done]|].
    destruct (save _ _) as [[? ?]|]; simpl; (split; [tauto | done]).
  - unfold put_tasks_id, try_catch.
    destruct (date_check _ _ _) as [[|]|]; simpl;
      [split; [tauto | done]| |split; [tauto | done]].
    destruct (date_to_set _ _); simpl; [|split; [tauto | done]].
    destruct (findByIdAndUpdate _ _ _ _ _ _) as [[[?|] ?]|]; simpl;
      (split; [tauto | done]).
  - unfold delete_tasks_id.
    destruct (findByIdAndDelete _ _ _) as [[[?|] ?]|]; simpl;
      (split; [tauto | done]).
  - done.
  - done.
Qed.

Lemma handle_title_ok (req : request) (db : gmap ObjectId Task) :
  map_Forall (λ _ t, title_ok t) db →
  map_Forall (λ _ t, title_ok t) (handle Date_parse castObjectId req db).2.
Proof.
  intros Hdb.
  destruct req as [|id|now Date_now req_body|now id req_body|id| |url].
  - done.
  - simpl. unfold get_tasks_id. by destruct (findById _ _ _) as [[?|]|].
  - simpl.
    destruct (decide (status (post_tasks Date_parse now Date_now req_body db).1 = 201))
      as [H201|H201].
    + destruct (post_tasks_201 now Date_now req_body db H201)
        as (i & t & -> & _ & taskDate & _ & _ & Hn).
      simpl. apply map_Forall_insert_2; [|done].
      by eapply new_Task_title_ok.
    + revert H201. rewrite post_tasks_unfold.
      destruct (JS.to_string _); [|done].
      destruct (negb _ || negb _); [done|].
      destruct (JS.new_Date _ _); [|done].
      destruct (JS.Date_lt _ _); [done|].
      by destruct (save _ _) as [[? ?]|].
  - simpl.
    destruct (put_tasks_id_effect now id req_body db)
      as [[Hr _]|(i & t & u & _ & Ht & _ & Hu & Hr)].
    + destruct (put_tasks_id _ _ _ _ _ _). simpl in *. by subst.
    + rewrite Hr. simpl. apply map_Forall_insert_2; [|done].
      apply checked_update_Ok in Hu as (d' & _ & Hs & _ & _ & Hv).
      eapply applyUpdate_title_ok; [done..|]. by apply (Hdb i).
  - simpl. unfold delete_tasks_id, findByIdAndDelete.
    destruct (castObjectId id) as [i|]; [|done].
    destruct (db !! i); [|done]. simpl. by apply map_Forall_delete.
  - done.
  - done.
Qed.

(** The collection keeps its titles in order through any sequence of
    requests: if every stored title is non-empty and trimmed, the same
    holds after the requests have been served, whatever they are (so
    it holds of everything served from an empty collection). *)
Theorem serve_title_ok (reqs : list request) (db : gmap ObjectId Task) :
  map_Forall (λ _ t, title_ok t) db →
  map_Forall (λ _ t, title_ok t) (serve Date_parse castObjectId reqs db).2.
Proof.
  revert db. induction reqs as [|req reqs IH]; intros db Hdb; [done|].
  simpl. pose proof (handle_title_ok req db Hdb) as H.
  destruct (handle _ _ req db) as [r db']. simpl in H.
  specialize (IH db' H).
  by destruct (serve _ _ reqs db') as [rs db''].
Qed.

End MoreRouteProperties.

(** ** The routes on concrete requests *)

Import Sample.

Example castObjectId_samples :
  castObjectId id_a = Some 1%N ∧ castObjectId id_b = Some 2%N
  ∧ castObjectId "no-es-un-id" = None.
Proof. by vm_compute. Qed.

(** A malformed identifier is a cast error, answered 500. *)
Example get_tasks_id_malformed :
  get_tasks_id castObjectId "no-es-un-id" db
  = (res_status_json 500 (Failure "Error al obtener la tarea" (ErrorMessage CastError)), db).
Proof. by vm_compute. Qed.

(** The date check compares with [<]: a date equal to now is let
    through, although the handler asks for a future date. *)
Example post_tasks_date_equal_now :
  status (post_tasks Date_parse 1000 1000
            {[ "title" := JS.Str "a"; "date" := JS.Num 1000 ]} ∅).1 = 201.
Proof. by vm_compute. Qed.

(** A date that does not parse passes the check and fails in [save]. *)
Example post_tasks_invalid_date :
  post_tasks Date_parse now now
    {[ "title" := JS.Str "leer"; "date" := JS.Str "pronto" ]} db
  = (res_status_json 500 (Failure "Error al crear la tarea" (ErrorMessage ValidationError)), db).
Proof. by vm_compute. Qed.

(** C1 fails as stated.  With a title and a date whose parsed value is
    exactly now, the answer is 201 and the task is stored; and with a
    date strictly after now but a title of blanks, the answer is 500
    and nothing is stored. *)
Lemma post_tasks_not_as_stated :
  (let req_body : gmap string JS.value :=
     {[ "title" := JS.Str "a"; "date" := JS.Num 1000 ]} in
   let task := {| title := "a"; date := 1000; createdAt := 1000;
                  completed := Some false |} in
   JS.new_Date Date_parse (JS.prop req_body "date") = Ok (Some 1000)
   ∧ post_tasks Date_parse 1000 1000 req_body ∅
     = (res_status_json 201 (TaskSaved "Tarea creada exitosamente" (0%N, task)),
        {[ 0%N := task ]}))
  ∧ (let req_body : gmap string JS.value :=
       {[ "title" := JS.Str "   "; "date" := JS.Str "2100-01-01" ]} in
     JS.truthy (JS.prop req_body "title") = true
     ∧ JS.new_Date Date_parse (JS.prop req_body "date") = Ok (Some 4102444800000)
     ∧ now < 4102444800000
     ∧ post_tasks Date_parse now now req_body db
       = (res_status_json 500
            (Failure "Error al crear la tarea" (ErrorMessage ValidationError)), db)).
Proof. by vm_compute. Qed.

Lemma post_tasks_date_check_witness :
  let past : gmap string JS.value :=
    {[ "title" := JS.Str "leer"; "date" := JS.Str "2000-01-01" ]} in
  let future : gmap string JS.value :=
    {[ "title" := JS.Str "  leer  "; "date" := JS.Str "2100-01-01" ]} in
  let blank : gmap string JS.value :=
    {[ "title" := JS.Str "   "; "date" := JS.Str "2100-01-01" ]} in
  let task := {| title := "leer"; date := 4102444800000; createdAt := now + 1;
                 completed := Some false |} in
  post_tasks Date_parse now (now + 1) past db
  = (res_status_json 400 (Failure "Fecha inválida" (Text "La fecha debe ser futura")), db)
  ∧ (∃ _id : ObjectId,
       db !! _id = None
       ∧ post_tasks Date_parse now (now + 1) future db
         = (res_status_json 201 (TaskSaved "Tarea creada exitosamente" (_id, task)),
            <[_id := task]> db))
  ∧ post_tasks Date_parse now (now + 1) blank db
    = (res_status_json 500
         (Failure "Error al crear la tarea" (ErrorMessage ValidationError)), db).
Proof.
  intros past future blank task. split; [|split].
  - apply (proj1 (post_tasks_date_check Date_parse now (now + 1) past db "leer"
                    eq_refl eq_refl eq_refl) 946684800000); [reflexivity | reflexivity].
  - apply (proj1 (proj2 (post_tasks_date_check Date_parse now (now + 1) future db
                           "  leer  " eq_refl eq_refl eq_refl)) 4102444800000 "leer");
      [reflexivity | reflexivity | reflexivity | discriminate].
  - apply (proj1 (proj2 (proj2 (post_tasks_date_check Date_parse now (now + 1) blank db
                                   "   " eq_refl eq_refl eq_refl))) 4102444800000);
      [reflexivity | reflexivity | reflexivity].
Defined.


(** C4 fails as stated.  The number 0 is a supplied date, it is the
    instant 0 and that is before now; but it is falsy, the date check
    does not look at it and the update is answered 200. *)
Lemma put_tasks_id_date_zero_200 :
  let req_body : gmap string JS.value := {[ "date" := JS.Num 0 ]} in
  req_body !! "date" = Some (JS.Num 0)
  ∧ JS.new_Date Date_parse (JS.prop req_body "date") = Ok (Some 0)
  ∧ 0 < now
  ∧ put_tasks_id Date_parse castObjectId now id_a req_body db
    = (res_json (TaskSaved "Tarea actualizada exitosamente" (1%N, task_a)), db).
Proof. by vm_compute. Qed.

Lemma put_tasks_id_past_date_witness :
  let req_body : gmap string JS.value :=
    {[ "title" := JS.Str "leer"; "date" := JS.Str "2000-01-01" ]} in
  put_tasks_id Date_parse castObjectId now id_a req_body db
  = (res_status_json 400 (Failure "Fecha inválida" (Text "La fecha debe ser futura")), db).
Proof.
  intros req_body.
  apply (put_tasks_id_past_date Date_parse castObjectId now id_a req_body db
           946684800000); reflexivity.
Defined.

(** C2 fails as stated.  The stored task of [id_a] is updated with a
    new title and the date 0: the update is carried out and answered
    200, the title is applied, but the supplied date is not: the
    stored date stays what it was. *)
Lemma put_tasks_id_date_not_applied :
  let req_body : gmap string JS.value :=
    {[ "title" := JS.Str "leer"; "date" := JS.Num 0 ]} in
  let r := put_tasks_id Date_parse castObjectId now id_a req_body db in
  castObjectId id_a = Some 1%N
  ∧ db !! 1%N = Some task_a
  ∧ req_body !! "date" = Some (JS.Num 0)
  ∧ JS.new_Date Date_parse (JS.prop req_body "date") = Ok (Some 0)
  ∧ status r.1 = 200
  ∧ title <$> r.2 !! 1%N = Some "leer"
  ∧ date <$> r.2 !! 1%N = Some 4102444800000.
Proof. by vm_compute. Qed.

Lemma put_tasks_id_partial_update_witness :
  let req_body : gmap string JS.value := {[ "completed" := JS.Bool false ]} in
  let r := put_tasks_id Date_parse castObjectId now id_a req_body db in
  ∃ t', r.2 !! 1%N = Some t'
        ∧ title t' = "comprar pan" ∧ date t' = 4102444800000
        ∧ completed t' = Some false.
Proof.
  intros req_body r.
  destruct (put_tasks_id_partial_update Date_parse castObjectId now id_a req_body db
              1%N task_a eq_refl eq_refl)
    as (t' & Ht' & Htitle & Hdate & _ & H200 & _).
  exists t'. split; [exact Ht'|].
  split; [exact (Htitle eq_refl)|].
  split; [exact (Hdate eq_refl)|].
  exact (proj1 (proj2 (proj2 (H200 eq_refl))) false eq_refl).
Defined.

Lemma put_tasks_id_keeps_id_createdAt_witness :
  let req_body : gmap string JS.value :=
    {[ "title" := JS.Str "leer"; "createdAt" := JS.Num 0;
       "_id" := JS.Str "000000000000000000000002" ]} in
  let r := put_tasks_id Date_parse castObjectId now id_a req_body db in
  (∃ t', r.2 !! 1%N = Some t' ∧ createdAt t' = 1700000000000)
  ∧ dom r.2 = dom db.
Proof.
  intros req_body r.
  destruct (put_tasks_id_keeps_id_createdAt Date_parse castObjectId now id_a req_body db
              1%N task_a eq_refl eq_refl)
    as ((t' & Ht' & Hc & _) & Hdom & _).
  split; [|exact Hdom].
  exists t'. split; [exact Ht' | exact Hc].
Defined.

(** An update that is not carried out applies nothing:
    [completed: false] sent together with a past date is answered 400
    and the stored flag stays [true]. *)
Example put_tasks_id_false_with_past_date :
  let req_body : gmap string JS.value :=
    {[ "completed" := JS.Bool false; "date" := JS.Str "2000-01-01" ]} in
  let r := put_tasks_id Date_parse castObjectId now id_a req_body db in
  castObjectId id_a = Some 1%N
  ∧ db !! 1%N = Some task_a
  ∧ JS.prop req_body "completed" = JS.Bool false
  ∧ status r.1 = 400
  ∧ completed <$> r.2 !! 1%N = Some (Some true).
Proof. by vm_compute. Qed.

Lemma put_tasks_id_completed_false_witness :
  let req_body : gmap string JS.value :=
    {[ "completed" := JS.Bool false; "title" := JS.Str " leer " ]} in
  ∃ t', put_tasks_id Date_parse castObjectId now id_a req_body db
        = (res_json (TaskSaved "Tarea actualizada exitosamente" (1%N, t')),
           <[1%N := t']> db)
        ∧ completed t' = Some false.
Proof.
  intros req_body.
  exact (proj1 (put_tasks_id_completed_false Date_parse castObjectId now id_a req_body db
                  1%N task_a eq_refl eq_refl eq_refl eq_refl eq_refl)).
Defined.

(** An empty [date] sent together with a flag that does not cast to a
    boolean is answered 500: the rest of the request is still cast. *)
Example put_tasks_id_empty_date_bad_flag :
  let req_body : gmap string JS.value :=
    {[ "date" := JS.Str ""; "completed" := JS.Str "quizas" ]} in
  castObjectId id_a = Some 1%N
  ∧ db !! 1%N = Some task_a
  ∧ JS.truthy (JS.prop req_body "date") = false
  ∧ put_tasks_id Date_parse castObjectId now id_a req_body db
    = (res_status_json 500
         (Failure "Error al actualizar la tarea" (ErrorMessage CastError)), db).
Proof. by vm_compute. Qed.

Lemma put_tasks_id_falsy_date_witness :
  let req_body : gmap string JS.value :=
    {[ "date" := JS.Num 0; "title" := JS.Str "leer" ]} in
  let r := put_tasks_id Date_parse castObjectId now id_a req_body db in
  status r.1 = 200 ∧ ∃ t', r.2 !! 1%N = Some t' ∧ date t' = 4102444800000.
Proof.
  intros req_body r.
  destruct (put_tasks_id_falsy_date Date_parse castObjectId now id_a req_body db
              1%N task_a eq_refl eq_refl eq_refl)
    as (_ & _ & _ & Hdate & H200).
  split; [exact H200 | exact Hdate].
Defined.



Lemma delete_tasks_id_removes_witness :
  let r := delete_tasks_id castObjectId id_a db in
  r.1 = res_json (TaskRemoved "Tarea eliminada correctamente" 1%N "comprar pan")
  ∧ r.2 !! 1%N = None
  ∧ status (get_tasks_id castObjectId id_a r.2).1 = 404.
Proof.
  intros r.
  destruct (delete_tasks_id_removes castObjectId id_a db 1%N task_a eq_refl eq_refl)
    as (Hr & _ & _ & Hgone & _ & _ & H404).
  split; [exact Hr|]. split; [exact Hgone | exact H404].
Defined.

(** ** The further properties on concrete requests *)

Lemma post_tasks_created_witness :
  let req_body : gmap string JS.value :=
    {[ "title" := JS.Str "  leer  "; "date" := JS.Str "2100-01-01" ]} in
  let r := post_tasks Date_parse now (now + 1) req_body db in
  ∃ (_id : ObjectId) (t : Task),
    r.2 = <[_id := t]> db ∧ db !! _id = None ∧ title_ok t ∧ now ≤ date t
    ∧ size r.2 = 2%nat.
Proof.
  intros req_body r.
  destruct (post_tasks_created Date_parse now (now + 1) req_body db)
    as (i & t & Hr & Hi & Hok & Hd & _ & _ & Hsize & _).
  { vm_compute. reflexivity. }
  exists i, t. split; [exact (f_equal snd Hr)|].
  split; [exact Hi|]. split; [exact Hok|]. split; [exact Hd | exact Hsize].
Defined.

Lemma post_tasks_then_get_witness :
  let req_body : gmap string JS.value :=
    {[ "title" := JS.Str "leer"; "date" := JS.Str "2100-01-01" ]} in
  let doc : Document :=
    (2%N, {| title := "leer"; date := 4102444800000; createdAt := now;
             completed := Some false |}) in
  get_tasks_id castObjectId id_b (<[2%N := doc.2]> db)
  = (res_json (TaskData doc), <[2%N := doc.2]> db).
Proof.
  intros req_body doc.
  apply (post_tasks_then_get Date_parse castObjectId now now req_body db
           (<[2%N := doc.2]> db) "Tarea creada exitosamente" id_b doc).
  - vm_compute. reflexivity.
  - vm_compute. reflexivity.
Defined.

Lemma post_tasks_then_list_witness :
  let req_body : gmap string JS.value :=
    {[ "title" := JS.Str "leer"; "date" := JS.Str "2100-01-01" ]} in
  let doc : Document :=
    (2%N, {| title := "leer"; date := 4102444800000; createdAt := now;
             completed := Some false |}) in
  ∃ data, get_tasks (<[2%N := doc.2]> db) = (res_json (TaskList 2 data), <[2%N := doc.2]> db)
          ∧ doc ∈ data.
Proof.
  intros req_body doc.
  destruct (post_tasks_then_list Date_parse now now req_body db
              (<[2%N := doc.2]> db) "Tarea creada exitosamente" doc)
    as (data & Hl & Hin & _).
  { vm_compute. reflexivity. }
  exists data. split; [exact Hl | exact Hin].
Defined.

Lemma post_tasks_then_delete_witness :
  let req_body : gmap string JS.value :=
    {[ "title" := JS.Str "leer"; "date" := JS.Str "2100-01-01" ]} in
  let t := {| title := "leer"; date := 4102444800000; createdAt := now;
              completed := Some false |} in
  delete_tasks_id castObjectId id_b (<[2%N := t]> db)
  = (res_json (TaskRemoved "Tarea eliminada correctamente" 2%N "leer"), db).
Proof.
  intros req_body t.
  apply (post_tasks_then_delete Date_parse castObjectId now now req_body db
           (<[2%N := t]> db) "Tarea creada exitosamente" id_b (2%N, t)).
  - vm_compute. reflexivity.
  - vm_compute. reflexivity.
Defined.

Lemma unparsable_date_500_witness :
  let req_body : gmap string JS.value :=
    {[ "title" := JS.Str "leer"; "date" := JS.Str "pronto" ]} in
  post_tasks Date_parse now now req_body db
  = (res_status_json 500
       (Failure "Error al crear la tarea" (ErrorMessage ValidationError)), db)
  ∧ put_tasks_id Date_parse castObjectId now id_a req_body db
    = (res_status_json 500
         (Failure "Error al actualizar la tarea" (ErrorMessage CastError)), db).
Proof.
  intros req_body.
  destruct (unparsable_date_500 Date_parse castObjectId now req_body db
              eq_refl eq_refl) as [Hpost Hput].
  split; [exact (Hpost now "leer" eq_refl eq_refl) | exact (Hput id_a)].
Defined.

Lemma conversion_error_500_witness :
  let bad : JS.value := JS.Obj {[ "toString" := JS.Num 1 ]} in
  post_tasks Date_parse now now {[ "title" := bad ]} db
  = (res_status_json 500 (Failure "Error al crear la tarea" (ErrorMessage TypeError)), db)
  ∧ post_tasks Date_parse now now {[ "title" := JS.Str "leer"; "date" := bad ]} db
    = (res_status_json 500 (Failure "Error al crear la tarea" (ErrorMessage TypeError)), db)
  ∧ put_tasks_id Date_parse castObjectId now id_a {[ "date" := bad ]} db
    = (res_status_json 500
         (Failure "Error al actualizar la tarea" (ErrorMessage TypeError)), db).
Proof.
  intros bad. split; [|split].
  - apply (proj1 (conversion_error_500 Date_parse castObjectId now
                    {[ "title" := bad ]} db TypeError)).
    vm_compute. reflexivity.
  - destruct (proj2 (conversion_error_500 Date_parse castObjectId now
                       {[ "title" := JS.Str "leer"; "date" := bad ]} db TypeError))
      as (_ & Hpost & _).
    { vm_compute. reflexivity. }
    apply (Hpost now "leer"); vm_compute; reflexivity.
  - destruct (proj2 (conversion_error_500 Date_parse castObjectId now
                       {[ "date" := bad ]} db TypeError))
      as (_ & _ & Hput).
    { vm_compute. reflexivity. }
    exact (Hput id_a).
Defined.

Lemma put_tasks_id_updated_witness :
  let req_body : gmap string JS.value :=
    {[ "title" := JS.Str " leer "; "date" := JS.Str "2100-01-01" ]} in
  ∃ t', (put_tasks_id Date_parse castObjectId now id_a req_body db).2 = <[1%N := t']> db
        ∧ title_ok t' ∧ now ≤ date t' ∧ createdAt t' = 1700000000000.
Proof.
  intros req_body.
  destruct (put_tasks_id_updated Date_parse castObjectId now id_a req_body db)
    as (i & t & t' & Hi & Ht & Hr & Hok & Hd & Hc).
  { vm_compute. reflexivity. }
  injection Hi as <-. injection Ht as <-.
  exists t'. split; [exact (f_equal snd Hr)|].
  split; [apply Hok; discriminate|].
  split; [exact (proj2 (Hd eq_refl)) | exact Hc].
Defined.

Lemma put_tasks_id_then_get_witness :
  let req_body : gmap string JS.value := {[ "completed" := JS.Bool false ]} in
  let r := put_tasks_id Date_parse castObjectId now id_a req_body db in
  ∃ doc, r.1 = res_json (TaskSaved "Tarea actualizada exitosamente" doc)
         ∧ get_tasks_id castObjectId id_a r.2 = (res_json (TaskData doc), r.2).
Proof.
  intros req_body r.
  apply (put_tasks_id_then_get Date_parse castObjectId now id_a req_body db).
  vm_compute. reflexivity.
Defined.

Lemma put_tasks_id_no_fields_witness :
  put_tasks_id Date_parse castObjectId now id_a {[ "hecho" := JS.Bool true ]} db
  = (res_json (TaskSaved "Tarea actualizada exitosamente" (1%N, task_a)), db).
Proof.
  apply (put_tasks_id_no_fields Date_parse castObjectId now id_a
           {[ "hecho" := JS.Bool true ]} db 1%N task_a);
    vm_compute; reflexivity.
Defined.

Lemma delete_tasks_id_then_list_witness :
  ∃ data, get_tasks (delete_tasks_id castObjectId id_a db).2
          = (res_json (TaskList 0 data), (delete_tasks_id castObjectId id_a db).2).
Proof.
  destruct (delete_tasks_id_then_list castObjectId id_a db)
    as (i & t & data & _ & _ & Hl & _).
  { vm_compute. reflexivity. }
  exists data. exact Hl.
Defined.

Lemma malformed_id_500_witness :
  get_tasks_id castObjectId "no-es-un-id" db
  = (res_status_json 500 (Failure "Error al obtener la tarea" (ErrorMessage CastError)), db)
  ∧ delete_tasks_id castObjectId "no-es-un-id" db
    = (res_status_json 500 (Failure "Error al eliminar la tarea" (ErrorMessage CastError)), db).
Proof.
  destruct (malformed_id_500 Date_parse castObjectId "no-es-un-id" db eq_refl)
    as (Hget & Hdel & _).
  split; [exact Hget | exact Hdel].
Defined.

Lemma get_tasks_get_tasks_id_witness :
  get_tasks_id castObjectId id_a db = (res_json (TaskData (1%N, task_a)), db).
Proof.
  apply (get_tasks_get_tasks_id castObjectId id_a db 1%N task_a 1 [(1%N, task_a)]).
  - vm_compute. reflexivity.
  - vm_compute. reflexivity.
  - apply list_elem_of_singleton. reflexivity.
Defined.

Lemma serve_title_ok_witness :
  map_Forall (λ _ t, title_ok t)
    (serve Date_parse castObjectId
       [POST_tasks now now {[ "title" := JS.Str " leer "; "date" := JS.Str "2100-01-01" ]};
        PUT_tasks_id now id_a {[ "title" := JS.Str "   " ]};
        PUT_tasks_id now id_a {[ "title" := JS.Num 7 ]};
        DELETE_tasks_id id_b;
        GET_tasks] db).2.
Proof.
  apply (serve_title_ok Date_parse castObjectId).
  apply map_Forall_singleton. split; [discriminate | reflexivity].
Defined.

Example serve_session :
  (serve Date_parse castObjectId
     [POST_tasks now now {[ "title" := JS.Str " leer "; "date" := JS.Str "2100-01-01" ]};
      PUT_tasks_id now id_a {[ "title" := JS.Str "   " ]};
      PUT_tasks_id now id_a {[ "title" := JS.Num 7 ]};
      DELETE_tasks_id id_b;
      GET_tasks;
      Unmatched "/tareas"] db)
  = ([Json (res_status_json 201
              (TaskSaved "Tarea creada exitosamente"
                 (2%N, {| title := "leer"; date := 4102444800000; createdAt := now;
                          completed := Some false |})));
      Json (res_status_json 500
              (Failure "Error al actualizar la tarea" (ErrorMessage ValidationError)));
      Json (res_json
              (TaskSaved "Tarea actualizada exitosamente"
                 (1%N, {| title := "7"; date := 4102444800000;
                          createdAt := 1700000000000; completed := Some true |})));
      Json (res_json (TaskRemoved "Tarea eliminada correctamente" 2%N "leer"));
      Json (res_json
              (TaskList 1
                 [(1%N, {| title := "7"; date := 4102444800000;
                           createdAt := 1700000000000; completed := Some true |})]));
      Json (route_not_found "/tareas")],
     {[ 1%N := {| title := "7"; date := 4102444800000;
                  createdAt := 1700000000000; completed := Some true |} ]}).
Proof. vm_compute. reflexivity. Qed.
